(** * AI-chat: session and history manager of [index.tsx]

    A shallow embedding of the stateful core of the single-page chat client
    (the closures of [main] in [index.tsx]) together with the properties of
    its specification.

    Conventions of the embedding.
    - A JavaScript string is the sequence of its UTF-16 code units.
    - [localStorage\[USERS_KEY\]] is represented by the profile list it
      decodes to ([getUsers] of an absent record is the empty list);
      [sessionStorage\[CURRENT_USER_SESSION_KEY\]] by an optional string.
    - The variables captured by the closures of [main] ([currentUser],
      [currentMessages], [currentLoadedSessionId], [chat]) and the DOM
      elements whose content the handlers write are the fields of [State];
      every handler is a function on [State].
    - A handler that raises a [TypeError] (reading [parts\[0\].text] of a
      message without parts) ends in [Throws], carrying the state reached
      when the exception left the handler.
    - [Date.now()], [new Date().toISOString()], the text fields of the forms
      and the fragments delivered by the model are inputs of the handlers;
      a session id is an integer, as [Date.now()] returns one.
    - The theme functions and the avatar picker of the sign-up modal act on
      parts of the page of their own, [ThemePage] and a list of
      [AvatarOption].
    - Of the chat handle the history it was created with is kept; what the
      client library adds to it during a request is not represented. A
      handler runs to its end before the next event is handled. *)

From stdpp Require Import base decidable option numbers list.
From Stdlib Require String Ascii.
Import String.StringSyntax.
Delimit Scope string_scope with string.

Set Default Proof Using "Type".

(** ** Strings *)

Abbreviation jsstring := (list N).

(** The code units of an ASCII literal. *)
Definition u16 (s : String.string) : jsstring :=
  Ascii.N_of_ascii <$> String.list_ascii_of_string s.
Arguments u16 s%_string.

(** JavaScript truthiness of a string: every string but the empty one. *)
Definition truthy (s : jsstring) : bool := bool_decide (s ≠ []).

(** [a || b] on strings. *)
Definition or_else (a b : jsstring) : jsstring := if truthy a then a else b.

(** WhiteSpace and LineTerminator code units, the ones [String.prototype.trim]
    strips. *)
Definition isWhiteSpace (c : N) : bool :=
  bool_decide (c ∈ [9; 10; 11; 12; 13; 32; 160; 5760; 8232; 8233; 8239; 8287;
                    12288; 65279]%N)
  || (8192 <=? c)%N && (c <=? 8202)%N.

Fixpoint trimStart (s : jsstring) : jsstring :=
  match s with
  | c :: s' => if isWhiteSpace c then trimStart s' else s
  | [] => []
  end.

Definition trim (s : jsstring) : jsstring :=
  reverse (trimStart (reverse (trimStart s))).

(** [s.substring(0, n)]. *)
Definition substring0 (n : nat) (s : jsstring) : jsstring := take n s.

(** [s.replace(/c/g, by)] for a single code unit [c]. *)
Definition replaceAll (c : N) (by_ : jsstring) (s : jsstring) : jsstring :=
  s ≫= λ x, if decide (x = c) then by_ else [x].

(** [h.includes(n)]. *)
Fixpoint includes (h n : jsstring) : bool :=
  if bool_decide (n `prefix_of` h) then true
  else match h with
       | [] => false
       | _ :: h' => includes h' n
       end.

(** [xs.join(sep)]. *)
Fixpoint join (sep : jsstring) (xs : list jsstring) : jsstring :=
  match xs with
  | [] => []
  | [x] => x
  | x :: xs' => x ++ sep ++ join sep xs'
  end.

(** ** Interfaces *)

Inductive Role := user | model.

Record Part := { text : jsstring }.

(** [meta] as the interface declares it. The spread [{ ...userProfile }]
    copies the other properties of the profile too; nothing reads them. *)
Record Meta := { meta_avatar : jsstring; meta_username : jsstring }.

Record Message := {
  role : Role;
  parts : list Part;
  meta : option Meta
}.

Record ChatSession := {
  session_id : Z;
  startTime : jsstring;
  title : jsstring;
  history : list Message
}.

(** A [chatHistory] that is missing reads as the empty list at each of its
    uses ([chatHistory || \[\]]). *)
Record UserProfile := {
  username : jsstring;
  avatar : jsstring;
  password : option jsstring;
  chatHistory : list ChatSession
}.

Global Instance Role_eq_dec : EqDecision Role.
Proof. solve_decision. Defined.
Global Instance Part_eq_dec : EqDecision Part.
Proof. solve_decision. Defined.
Global Instance Meta_eq_dec : EqDecision Meta.
Proof. solve_decision. Defined.
Global Instance Message_eq_dec : EqDecision Message.
Proof. solve_decision. Defined.
Global Instance ChatSession_eq_dec : EqDecision ChatSession.
Proof. solve_decision. Defined.
Global Instance UserProfile_eq_dec : EqDecision UserProfile.
Proof. solve_decision. Defined.

(** ** Constants *)

Definition DEFAULT_AVATAR : jsstring := [55357; 56420]%N.
Definition GUEST_PROFILE : UserProfile :=
  {| username := u16 "You"; avatar := DEFAULT_AVATAR; password := None;
     chatHistory := [] |}.
Definition MODEL_PROFILE : Meta :=
  {| meta_avatar := [55358; 56598]%N; meta_username := u16 "Model" |}.

(** ** The page *)

(** A paragraph of a transcript: a rendered message, or the paragraph of the
    model's answer with its response container (the typing indicator and the
    markup appended to [innerHTML]; the markup is kept as written, the
    browser's re-serialisation is not represented). *)
Inductive Para :=
| MessageP (who : Meta) (textContent : jsstring)
| ResponseP (typingIndicator : bool) (innerHTML : jsstring).

(** An item of [chatHistoryListEl]. *)
Inductive HistoryItem :=
| LoginPrompt
| EmptyMessage (textContent : jsstring)
| SessionItem (titleSpan dateSpan : jsstring) (session : ChatSession).

Record State := {
  users : list UserProfile;
  sessionUser : option jsstring;
  chat : list (Role * list Part);
  currentUser : option UserProfile;
  currentMessages : list Message;
  currentLoadedSessionId : option Z;
  messagesEl : list Para;
  chatHistoryListEl : list HistoryItem;
  userLoginError : bool;
  signupError : bool
}.

Definition set_users (v : list UserProfile) (st : State) : State :=
  {| users := v; sessionUser := sessionUser st; chat := chat st;
     currentUser := currentUser st; currentMessages := currentMessages st;
     currentLoadedSessionId := currentLoadedSessionId st;
     messagesEl := messagesEl st; chatHistoryListEl := chatHistoryListEl st;
     userLoginError := userLoginError st; signupError := signupError st |}.

Definition set_sessionUser (v : option jsstring) (st : State) : State :=
  {| users := users st; sessionUser := v; chat := chat st;
     currentUser := currentUser st; currentMessages := currentMessages st;
     currentLoadedSessionId := currentLoadedSessionId st;
     messagesEl := messagesEl st; chatHistoryListEl := chatHistoryListEl st;
     userLoginError := userLoginError st; signupError := signupError st |}.

Definition set_chat (v : list (Role * list Part)) (st : State) : State :=
  {| users := users st; sessionUser := sessionUser st; chat := v;
     currentUser := currentUser st; currentMessages := currentMessages st;
     currentLoadedSessionId := currentLoadedSessionId st;
     messagesEl := messagesEl st; chatHistoryListEl := chatHistoryListEl st;
     userLoginError := userLoginError st; signupError := signupError st |}.

Definition set_currentUser (v : option UserProfile) (st : State) : State :=
  {| users := users st; sessionUser := sessionUser st; chat := chat st;
     currentUser := v; currentMessages := currentMessages st;
     currentLoadedSessionId := currentLoadedSessionId st;
     messagesEl := messagesEl st; chatHistoryListEl := chatHistoryListEl st;
     userLoginError := userLoginError st; signupError := signupError st |}.

Definition set_currentMessages (v : list Message) (st : State) : State :=
  {| users := users st; sessionUser := sessionUser st; chat := chat st;
     currentUser := currentUser st; currentMessages := v;
     currentLoadedSessionId := currentLoadedSessionId st;
     messagesEl := messagesEl st; chatHistoryListEl := chatHistoryListEl st;
     userLoginError := userLoginError st; signupError := signupError st |}.

Definition set_currentLoadedSessionId (v : option Z) (st : State) : State :=
  {| users := users st; sessionUser := sessionUser st; chat := chat st;
     currentUser := currentUser st; currentMessages := currentMessages st;
     currentLoadedSessionId := v;
     messagesEl := messagesEl st; chatHistoryListEl := chatHistoryListEl st;
     userLoginError := userLoginError st; signupError := signupError st |}.

Definition set_messagesEl (v : list Para) (st : State) : State :=
  {| users := users st; sessionUser := sessionUser st; chat := chat st;
     currentUser := currentUser st; currentMessages := currentMessages st;
     currentLoadedSessionId := currentLoadedSessionId st;
     messagesEl := v; chatHistoryListEl := chatHistoryListEl st;
     userLoginError := userLoginError st; signupError := signupError st |}.

Definition set_chatHistoryListEl (v : list HistoryItem) (st : State) : State :=
  {| users := users st; sessionUser := sessionUser st; chat := chat st;
     currentUser := currentUser st; currentMessages := currentMessages st;
     currentLoadedSessionId := currentLoadedSessionId st;
     messagesEl := messagesEl st; chatHistoryListEl := v;
     userLoginError := userLoginError st; signupError := signupError st |}.

Definition set_userLoginError (v : bool) (st : State) : State :=
  {| users := users st; sessionUser := sessionUser st; chat := chat st;
     currentUser := currentUser st; currentMessages := currentMessages st;
     currentLoadedSessionId := currentLoadedSessionId st;
     messagesEl := messagesEl st; chatHistoryListEl := chatHistoryListEl st;
     userLoginError := v; signupError := signupError st |}.

Definition set_signupError (v : bool) (st : State) : State :=
  {| users := users st; sessionUser := sessionUser st; chat := chat st;
     currentUser := currentUser st; currentMessages := currentMessages st;
     currentLoadedSessionId := currentLoadedSessionId st;
     messagesEl := messagesEl st; chatHistoryListEl := chatHistoryListEl st;
     userLoginError := userLoginError st; signupError := v |}.

(** How a handler ends. *)
Inductive Outcome :=
| Returns (st : State)
| Throws (st : State).

(** The state the page is left in. *)
Definition after (o : Outcome) : State :=
  match o with Returns st | Throws st => st end.

Definition andThen (o : Outcome) (k : State → Outcome) : Outcome :=
  match o with
  | Returns st => k st
  | Throws st => Throws st
  end.

Notation "'let!' st := o 'in' k" := (andThen o (λ st, k))
  (at level 10, st name, o at level 100, k at level 200).

(** The readings of the clock one call of [saveChatSession] makes:
    [Date.now()] and [new Date().toISOString()]. *)
Record Clock := { now : Z; iso : jsstring }.

(** ** Chat handle *)

Definition initializeChat (history : list Message) (st : State) : State :=
  set_chat ((λ m, (role m, parts m)) <$> history) st.

(** ** User profile and authentication functions *)

Definition getCurrentUserProfile (st : State) : UserProfile :=
  default GUEST_PROFILE (currentUser st).

Definition updateUIForLogin (u : UserProfile) (st : State) : State :=
  set_currentUser (Some u) st.

Definition updateUIForLogout (st : State) : State :=
  initializeChat []
    (set_messagesEl []
       (set_currentLoadedSessionId None
          (set_currentMessages [] (set_currentUser None st)))).

(** [users.findIndex((u) => u.username === name)], with the profile found. *)
Definition findUser (name : jsstring) (us : list UserProfile)
  : option (nat * UserProfile) :=
  list_find (λ u, username u = name) us.

(** [m.parts\[0\].text]; [None] stands for the [TypeError]. *)
Definition firstText (m : Message) : option jsstring := text <$> parts m !! 0.

(** ** Rendering *)

(** [s.replace(/\n/g, '<br>')]. *)
Definition lineBreaks (s : jsstring) : jsstring := replaceAll 10 (u16 "<br>") s.

Definition renderMessage (st : State) (message : Message) : option Para :=
  let profile :=
    match role message with
    | user =>
        match meta message with
        | Some p => p
        | None => {| meta_avatar := avatar (getCurrentUserProfile st);
                     meta_username := username (getCurrentUserProfile st) |}
        end
    | model => MODEL_PROFILE
    end in
  let escapedUsername :=
    replaceAll 62 (u16 "&gt;") (replaceAll 60 (u16 "&lt;") (meta_username profile)) in
  t ← firstText message;
  Some (MessageP {| meta_avatar := meta_avatar profile;
                    meta_username := escapedUsername |}
                 (lineBreaks t)).

(** The children appended by the [forEach] of [renderMessagesTo], and whether
    the loop ran to its end. *)
Fixpoint renderMessages (st : State) (messages : list Message)
  : list Para * bool :=
  match messages with
  | [] => ([], true)
  | msg :: rest =>
      match renderMessage st msg with
      | None => ([], false)
      | Some p => let '(ps, ok) := renderMessages st rest in (p :: ps, ok)
      end
  end.

(** [renderMessagesTo(messagesEl, messages)]. *)
Definition renderMessagesTo_messagesEl (messages : list Message) (st : State)
  : Outcome :=
  let '(ps, ok) := renderMessages st messages in
  if ok then Returns (set_messagesEl ps st) else Throws (set_messagesEl ps st).

(** ** Chat history functions *)

Definition getChatSessions (st : State) : list ChatSession :=
  match currentUser st with
  | None => []
  | Some cu =>
      match findUser (username cu) (users st) with
      | Some (_, userProfile) => chatHistory userProfile
      | None => []
      end
  end.

Definition set_chatHistory (v : list ChatSession) (p : UserProfile) : UserProfile :=
  {| username := username p; avatar := avatar p; password := password p;
     chatHistory := v |}.

(** [currentLoadedSessionId || Date.now()]. *)
Definition idOrNow (cur : option Z) (t : Z) : Z :=
  match cur with
  | Some i => if decide (i = 0%Z) then t else i
  | None => t
  end.
Arguments idOrNow : simpl never.

(** The [newSession] of [saveChatSession], [t] being
    [currentMessages\[0\].parts\[0\].text]. *)
Definition newSession (c : Clock) (cur : option Z) (t : jsstring)
    (messages : list Message) : ChatSession :=
  {| session_id := idOrNow cur (now c);
     startTime := iso c;
     title := substring0 40 t ++ u16 "...";
     history := messages |}.

(** The sessions [saveChatSession] keeps: [s.id !== currentLoadedSessionId]. *)
Definition otherSessions (cur : option Z) (l : list ChatSession)
  : list ChatSession :=
  filter (λ s, Some (session_id s) ≠ cur) l.

Definition saveChatSession (c : Clock) (st : State) : Outcome :=
  match currentUser st, currentMessages st with
  | None, _ | _, [] => Returns st
  | Some cu, first :: _ =>
      match findUser (username cu) (users st) with
      | None => Returns st
      | Some (userIndex, userProfile) =>
          let sessions :=
            otherSessions (currentLoadedSessionId st) (chatHistory userProfile) in
          match firstText first with
          | None => Throws st
          | Some t =>
              let session :=
                newSession c (currentLoadedSessionId st) t (currentMessages st) in
              Returns
                (set_users
                   (<[userIndex := set_chatHistory (session :: sessions) userProfile]>
                      (users st))
                   st)
          end
      end
  end.

(** ** History page *)

Section Page.

(** [String.prototype.toLowerCase] and [new Date(startTime).toLocaleString()]
    are the browser's; the page is parametric in them. *)
Variable toLowerCase : jsstring → jsstring.
Variable toLocaleString : jsstring → jsstring.

(** [session.history.map((m) => m.parts\[0\].text).join(' ')]. *)
Definition contentText (session : ChatSession) : option jsstring :=
  join (u16 " ") <$> mapM firstText (history session).

(** The callback of [sessions.filter] in [renderChatHistoryList]. *)
Definition sessionMatches (lowerCaseFilter : jsstring) (session : ChatSession)
  : option bool :=
  let dateString := toLocaleString (startTime session) in
  c ← contentText session;
  Some (includes (toLowerCase (title session)) lowerCaseFilter
        || includes (toLowerCase dateString) lowerCaseFilter
        || includes (toLowerCase c) lowerCaseFilter).

(** [filteredSessions] of [renderChatHistoryList]; [None] when the callback
    throws. *)
Fixpoint filteredSessions (filter_ : jsstring) (sessions : list ChatSession)
  : option (list ChatSession) :=
  match sessions with
  | [] => Some []
  | session :: rest =>
      b ← sessionMatches (toLowerCase filter_) session;
      r ← filteredSessions filter_ rest;
      Some (if b : bool then session :: r else r)
  end.

Definition renderChatHistoryList (filter_ : jsstring) (st : State) : Outcome :=
  match currentUser st with
  | None => Returns (set_chatHistoryListEl [LoginPrompt] st)
  | Some _ =>
      match filteredSessions filter_ (getChatSessions st) with
      | None => Throws (set_chatHistoryListEl [] st)
      | Some [] =>
          Returns
            (set_chatHistoryListEl
               [EmptyMessage (if truthy filter_
                              then u16 "No matching chats found."
                              else u16 "No saved chats yet.")]
               st)
      | Some fs =>
          Returns
            (set_chatHistoryListEl
               ((λ s, SessionItem (title s) (toLocaleString (startTime s)) s) <$> fs)
               st)
      end
  end.

Definition deleteChatSession (id : Z) (st : State) : Outcome :=
  match currentUser st with
  | None => Returns st
  | Some cu =>
      match findUser (username cu) (users st) with
      | None => Returns st
      | Some (userIndex, userProfile) =>
          let sessions :=
            filter (λ s, session_id s ≠ id) (chatHistory userProfile) in
          renderChatHistoryList []
            (set_users
               (<[userIndex := set_chatHistory sessions userProfile]> (users st))
               st)
      end
  end.

(** The [onclick] that [showHistoryDetailView(session)] installs on the load
    button, run on the session the closure holds. *)
Definition loadChat (session : ChatSession) (c : Clock) (st : State) : Outcome :=
  let! st1 := saveChatSession c st in
  let st2 :=
    initializeChat (history session)
      (set_currentLoadedSessionId (Some (session_id session))
         (set_currentMessages (history session) st1)) in
  renderMessagesTo_messagesEl (currentMessages st2) st2.

(** ** Main chat logic *)

Definition checkCurrentUserSession (st : State) : Outcome :=
  match sessionUser st with
  | None => Returns st
  | Some name =>
      if truthy name then
        match findUser name (users st) with
        | None => Returns st
        | Some (_, userProfile) =>
            let st1 := updateUIForLogin userProfile st in
            match chatHistory userProfile with
            | [] => Returns st1
            | latestSession :: _ =>
                let st2 :=
                  initializeChat (history latestSession)
                    (set_currentLoadedSessionId (Some (session_id latestSession))
                       (set_currentMessages (history latestSession) st1)) in
                renderMessagesTo_messagesEl (currentMessages st2) st2
            end
        end
      else Returns st
  end.

(** The variables of [main] as declared, over the two storages. *)
Definition initialState (stored : list UserProfile) (marker : option jsstring)
  : State :=
  {| users := stored; sessionUser := marker; chat := [];
     currentUser := None; currentMessages := []; currentLoadedSessionId := None;
     messagesEl := []; chatHistoryListEl := [];
     userLoginError := false; signupError := false |}.

(** [initializeChat(); checkCurrentUserSession();] of [main]. *)
Definition start (stored : list UserProfile) (marker : option jsstring) : Outcome :=
  checkCurrentUserSession (initializeChat [] (initialState stored marker)).

Definition newChat (c : Clock) (st : State) : Outcome :=
  let! st1 := saveChatSession c st in
  Returns
    (initializeChat []
       (set_messagesEl []
          (set_currentLoadedSessionId None (set_currentMessages [] st1)))).

(** The [userMessage] of the submit handler: the prompt, tagged with the
    profile acting at that time. *)
Definition userMessageOf (prompt : jsstring) (st : State) : Message :=
  {| role := user; parts := [{| text := prompt |}];
     meta := Some {| meta_avatar := avatar (getCurrentUserProfile st);
                     meta_username := username (getCurrentUserProfile st) |} |}.

(** The message pushed when the stream has completed. *)
Definition modelMessageOf (responseText : jsstring) : Message :=
  {| role := model; parts := [{| text := responseText |}]; meta := None |}.

(** The markup appended in the [catch] block. *)
Definition errorNotice : jsstring :=
  u16 "<strong>Error:</strong> Could not retrieve response.".

(** What one request to the model delivers: the fragments, in order, and
    whether the request then fails (the promise of [sendMessageStream] or of
    the iterator is rejected) instead of completing. *)
Record Stream := { chunks : list jsstring; rejected : bool }.

(** The body of the [for await] loop, on the response container (typing
    indicator, markup) and [responseText]. *)
Definition onChunk (acc : bool * jsstring * jsstring) (chunkText : jsstring)
  : bool * jsstring * jsstring :=
  let '(_, html, responseText) := acc in
  (false, html ++ lineBreaks chunkText, responseText ++ chunkText).

Definition formSubmit (value : jsstring) (response : Stream) (st : State)
  : Outcome :=
  let prompt := trim value in
  if truthy prompt then
    let userMessage := userMessageOf prompt st in
    let st1 := set_currentMessages (currentMessages st ++ [userMessage]) st in
    match renderMessage st1 userMessage with
    | None => Throws st1
    | Some p =>
        let '(typing, html, responseText) :=
          foldl onChunk (true, [], []) (chunks response) in
        if rejected response then
          Returns
            (set_messagesEl
               (messagesEl st1 ++
                [p; ResponseP false (html ++ errorNotice)])
               st1)
        else
          Returns
            (set_currentMessages
               (currentMessages st1 ++ [modelMessageOf responseText])
               (set_messagesEl (messagesEl st1 ++ [p; ResponseP typing html]) st1))
    end
  else Returns st.

(** ** Modals and page navigation *)

Definition userLoginSubmit (name pw : jsstring) (st : State) : State :=
  match list_find (λ u, username u = name ∧ password u = Some pw) (users st) with
  | Some (_, u) =>
      initializeChat []
        (set_messagesEl []
           (set_currentLoadedSessionId None
              (set_currentMessages []
                 (set_userLoginError false
                    (updateUIForLogin u (set_sessionUser (Some (username u)) st))))))
  | None => set_userLoginError true st
  end.

Definition profileSubmit (value pw : jsstring) (selectedAvatar : option jsstring)
    (st : State) : State :=
  let name := trim value in
  if bool_decide (Exists (λ u, username u = name) (users st)) then
    set_signupError true st
  else
    let newUser :=
      {| username := or_else name (u16 "User");
         avatar := or_else (default [] selectedAvatar) DEFAULT_AVATAR;
         password := Some pw;
         chatHistory := [] |} in
    set_signupError false
      (updateUIForLogin newUser
         (set_sessionUser (Some (username newUser))
            (set_users (users st ++ [newUser]) st))).

Definition logout (c : Clock) (st : State) : Outcome :=
  let! st1 := saveChatSession c st in
  Returns (updateUIForLogout (set_sessionUser None st1)).

(** ** Events *)

Inductive Event :=
| FormSubmit (value : jsstring) (response : Stream)
| NewChatClick (c : Clock)
| LoadChatClick (session : ChatSession) (c : Clock)
| DeleteClick (id : Z)
| HistorySearchInput (value : jsstring)
| UserLoginSubmit (name pw : jsstring)
| ProfileSubmit (value pw : jsstring) (selectedAvatar : option jsstring)
| LogoutClick (c : Clock).

Definition handle (e : Event) (st : State) : Outcome :=
  match e with
  | FormSubmit value response => formSubmit value response st
  | NewChatClick c => newChat c st
  | LoadChatClick session c => loadChat session c st
  | DeleteClick id => deleteChatSession id st
  | HistorySearchInput value => renderChatHistoryList value st
  | UserLoginSubmit name pw => Returns (userLoginSubmit name pw st)
  | ProfileSubmit value pw sel => Returns (profileSubmit value pw sel st)
  | LogoutClick c => logout c st
  end.

(** The page after a sequence of events; an exception ends the handler that
    raised it and no more. *)
Definition run (es : list Event) (st : State) : State :=
  foldl (λ s e, after (handle e s)) st es.

End Page.

(** ** Theme functions *)

(** What the theme functions read and write: [document.body.dataset.theme],
    [localStorage\[THEME_KEY\]] and the [hidden] class of the two icons of the
    theme switcher. *)
Record ThemePage := {
  bodyTheme : option jsstring;
  themePreference : option jsstring;
  sunHidden : bool;
  moonHidden : bool
}.

Definition applyTheme (theme : jsstring) (tp : ThemePage) : ThemePage :=
  {| bodyTheme := Some theme;
     themePreference := Some theme;
     sunHidden := bool_decide (theme = u16 "dark");
     moonHidden := negb (bool_decide (theme = u16 "dark")) |}.

Definition toggleTheme (tp : ThemePage) : ThemePage :=
  let newTheme :=
    if bool_decide (bodyTheme tp = Some (u16 "dark")) then u16 "light"
    else u16 "dark" in
  applyTheme newTheme tp.

(** [applyTheme(savedTheme || 'light')]. *)
Definition loadTheme (tp : ThemePage) : ThemePage :=
  applyTheme (or_else (default [] (themePreference tp)) (u16 "light")) tp.

(** ** Avatar picker *)

Definition AVATARS : list jsstring :=
  [[55358; 56785]; [55357; 56425]; [55358; 56598]; [55357; 56374];
   [55357; 56369]]%N.

(** A child of [avatarSelectionEl]: its [data-avatar] and whether it carries
    the class [selected]. *)
Record AvatarOption := { dataAvatar : jsstring; selected : bool }.

Definition initializeAvatarPicker : list AvatarOption :=
  imap (λ index a, {| dataAvatar := a; selected := bool_decide (index = 0) |})
    (DEFAULT_AVATAR :: AVATARS).

(** [avatarSelectionEl.querySelector('.avatar-option.selected')]. *)
Definition selectedOption (options : list AvatarOption)
  : option (nat * AvatarOption) :=
  list_find (λ o, selected o = true) options.

Definition setSelected (b : bool) (o : AvatarOption) : AvatarOption :=
  {| dataAvatar := dataAvatar o; selected := b |}.

(** [querySelector('.avatar-option.selected')?.classList.remove('selected')]. *)
Definition deselect (options : list AvatarOption) : list AvatarOption :=
  match selectedOption options with
  | Some (i, _) => alter (setSelected false) i options
  | None => options
  end.

(** The click listener of the option at [index]. *)
Definition clickOption (index : nat) (options : list AvatarOption)
  : list AvatarOption :=
  alter (setSelected true) index (deselect options).

(** The part of [closeProfileModal] that puts the selection back on the
    default avatar. *)
Definition resetSelection (options : list AvatarOption) : list AvatarOption :=
  let options' := deselect options in
  match list_find (λ o, dataAvatar o = DEFAULT_AVATAR) options' with
  | Some (i, _) => alter (setSelected true) i options'
  | None => options'
  end.

(** [selectedAvatarEl?.dataset.avatar] of the sign-up handler. *)
Definition selectedAvatarOf (options : list AvatarOption) : option jsstring :=
  (dataAvatar ∘ snd) <$> selectedOption options.

Inductive PickerEvent :=
| OptionClick (index : nat)
| ModalClosed.

Definition pick (options : list AvatarOption) (e : PickerEvent)
  : list AvatarOption :=
  match e with
  | OptionClick index => clickOption index options
  | ModalClosed => resetSelection options
  end.

(** ** Predicates of the properties *)

(** The entries of a session list that carry a given id. *)
Definition withId (id : Z) (l : list ChatSession) : list ChatSession :=
  filter (λ s, session_id s = id) l.

(** Every message of every session has a first part, as every message the
    page builds has. *)
Definition allHaveText (sessions : list ChatSession) : Prop :=
  Forall (λ s, Forall (λ m, is_Some (firstText m)) (history s)) sessions.

(** A run during which nobody is authenticated: [currentUser] is [null]
    before the first event and after each one. *)
Definition guestRun (toLowerCase toLocaleString : jsstring → jsstring)
    (es : list Event) (st : State) : Prop :=
  ∀ es1 es2, es = es1 ++ es2 →
    currentUser (run toLowerCase toLocaleString es1 st) = None.




(** What identifies a stored profile apart from its sessions. *)
Definition credentials (p : UserProfile) : jsstring * jsstring * option jsstring :=
  (username p, avatar p, password p).

(** The authenticated user is named by the marker and has a stored profile. *)
Definition loggedInStored (st : State) : Prop :=
  ∀ cu, currentUser st = Some cu →
    sessionUser st = Some (username cu) ∧ username cu ∈ username <$> users st.

(** The sessions behind the items of the history list. *)
Definition shownSessions (items : list HistoryItem) : list ChatSession :=
  items ≫= λ item,
    match item with
    | SessionItem _ _ session => [session]
    | _ => []
    end.

(** The picker with exactly the option at [index] selected. *)
Definition pickerWith (index : nat) (avatars : list jsstring)
  : list AvatarOption :=
  imap (λ i a, {| dataAvatar := a; selected := bool_decide (i = index) |}) avatars.

(** The picker with no option selected. *)
Definition noneSelected (avatars : list jsstring) : list AvatarOption :=
  (λ a, {| dataAvatar := a; selected := false |}) <$> avatars.

(** The index of the option clicked last, the default's when the modal was
    closed after it or nothing was clicked. *)
Definition lastPick (events : list PickerEvent) : nat :=
  match last events with
  | Some (OptionClick index) => index
  | _ => 0
  end.

(** ** Sample data *)

(** Lower-casing of the Basic Latin letters, an instance of [toLowerCase]. *)
Definition lowerLatin (s : jsstring) : jsstring :=
  (λ c, if (65 <=? c)%N && (c <=? 90)%N then (c + 32)%N else c) <$> s.

Definition person : jsstring := [55358; 56785]%N.

Definition alice : UserProfile :=
  {| username := u16 "alice"; avatar := person; password := Some (u16 "pw");
     chatHistory := [] |}.

Definition clockAt (t : Z) : Clock :=
  {| now := t; iso := u16 "2024-05-01T10:00:00.000Z" |}.

Definition says (r : Role) (t : String.string) : Message :=
  {| role := r; parts := [{| text := u16 t |}];
     meta := match r with
             | user => Some {| meta_avatar := person; meta_username := u16 "alice" |}
             | model => None
             end |}.
Arguments says r t%_string.

Definition greeting : list Message := [says user "hi"; says model "hello"].

Definition greetingSession : ChatSession :=
  {| session_id := 1000; startTime := u16 "2024-05-01T09:00:00.000Z";
     title := u16 "hi..."; history := greeting |}.

Definition farewellSession : ChatSession :=
  {| session_id := 900; startTime := u16 "2024-05-01T08:00:00.000Z";
     title := u16 "bye..."; history := [says user "bye"; says model "see you"] |}.

(** alice, logged in, with a conversation that was never saved. *)
Definition aliceChatting : State :=
  {| users := [alice]; sessionUser := Some (u16 "alice"); chat := [];
     currentUser := Some alice; currentMessages := greeting;
     currentLoadedSessionId := None; messagesEl := []; chatHistoryListEl := [];
     userLoginError := false; signupError := false |}.

(** alice, logged in, with two saved sessions, the newer one loaded. *)
Definition aliceReturning : State :=
  {| users := [set_chatHistory [greetingSession; farewellSession] alice];
     sessionUser := Some (u16 "alice"); chat := [];
     currentUser := Some alice; currentMessages := greeting;
     currentLoadedSessionId := Some 1000%Z; messagesEl := [];
     chatHistoryListEl := [];
     userLoginError := false; signupError := false |}.

(** The scenario of the specification: from empty storages alice signs up,
    sends hi and is answered hello in two fragments, the conversation is
    saved, a new chat is started, bye is sent and answered, and the
    conversation is saved. *)
Definition signedUp (pw : jsstring) : State :=
  profileSubmit (u16 "alice") pw (Some person) (after (start [] None)).

Definition saidHi (pw : jsstring) : State :=
  after (formSubmit (u16 "hi")
           {| chunks := [u16 "hel"; u16 "lo"]; rejected := false |} (signedUp pw)).

Definition savedHi (pw : jsstring) (c1 : Clock) : State :=
  after (saveChatSession c1 (saidHi pw)).

Definition saidBye (reply : list jsstring) (st : State) : State :=
  after (formSubmit (u16 "bye") {| chunks := reply; rejected := false |} st).

Definition scenario (pw : jsstring) (c1 c2 c3 : Clock) (reply : list jsstring)
  : State :=
  after (saveChatSession c3 (saidBye reply (after (newChat c2 (savedHi pw c1))))).

(** The same run without the explicit save before the new chat. *)
Definition scenarioSavedOnLeave (pw : jsstring) (c2 c3 : Clock)
    (reply : list jsstring) : State :=
  after (saveChatSession c3 (saidBye reply (after (newChat c2 (saidHi pw))))).

(** A guest who chats, starts over, chats again and mistypes a password. *)
Definition guestEvents : list Event :=
  [FormSubmit (u16 "hi") {| chunks := [u16 "hel"; u16 "lo"]; rejected := false |};
   NewChatClick (clockAt 2000);
   FormSubmit (u16 "a secret") {| chunks := []; rejected := true |};
   UserLoginSubmit (u16 "alice") (u16 "guess")].

(** * Properties *)

(** ** Lists and strings *)

Lemma findUser_Some name us i p :
  findUser name us = Some (i, p) ↔
  us !! i = Some p ∧ username p = name ∧
  ∀ j q, us !! j = Some q → j < i → username q ≠ name.
Proof. unfold findUser. apply (list_find_Some (λ u, username u = name)). Qed.

Lemma findUser_None name us :
  findUser name us = None ↔ Forall (λ u, username u ≠ name) us.
Proof. unfold findUser. apply (list_find_None (λ u, username u = name)). Qed.

Lemma findUser_lookup name us i p :
  findUser name us = Some (i, p) → us !! i = Some p ∧ username p = name.
Proof. rewrite findUser_Some. tauto. Qed.

(** Writing back a profile of the same name at the index found leaves it the
    one that is found. *)
Lemma findUser_insert name us i p p' :
  findUser name us = Some (i, p) → username p' = username p →
  findUser name (<[i := p']> us) = Some (i, p').
Proof.
  rewrite !findUser_Some. intros (Hi & Hn & Hleast) Hp'.
  split_and!.
  - apply list_lookup_insert_eq. by eapply lookup_lt_Some.
  - congruence.
  - intros j q Hj Hlt. rewrite list_lookup_insert_ne in Hj by lia. eauto.
Qed.

Lemma otherSessions_None l : otherSessions None l = l.
Proof.
  unfold otherSessions. induction l as [|s l IH]; [done|].
  rewrite filter_cons_True by done. by rewrite IH.
Qed.

Lemma otherSessions_Some i l :
  otherSessions (Some i) l = filter (λ s, session_id s ≠ i) l.
Proof.
  unfold otherSessions. apply list_filter_iff. intros s. split; congruence.
Qed.

Lemma otherSessions_idemp cur l :
  otherSessions cur (otherSessions cur l) = otherSessions cur l.
Proof.
  unfold otherSessions. induction l as [|s l IH]; [done|].
  destruct (decide (Some (session_id s) ≠ cur)) as [Hs|Hs].
  - rewrite !filter_cons_True by done. by rewrite IH.
  - by rewrite !filter_cons_False.
Qed.


(** ** [saveChatSession] *)

Lemma saveChatSession_guest c st :
  currentUser st = None → saveChatSession c st = Returns st.
Proof. intros H. unfold saveChatSession. by rewrite H. Qed.

Lemma saveChatSession_empty c st :
  currentMessages st = [] → saveChatSession c st = Returns st.
Proof. intros H. unfold saveChatSession. rewrite H. by destruct (currentUser st). Qed.

Lemma saveChatSession_saves c st cu first rest i p t :
  currentUser st = Some cu → currentMessages st = first :: rest →
  findUser (username cu) (users st) = Some (i, p) →
  firstText first = Some t →
  saveChatSession c st =
    Returns
      (set_users
         (<[i := set_chatHistory
                   (newSession c (currentLoadedSessionId st) t (currentMessages st)
                    :: otherSessions (currentLoadedSessionId st) (chatHistory p))
                   p]> (users st))
         st).
Proof.
  intros Hu Hm Hf Ht. unfold saveChatSession.
  by rewrite Hu, Hm, Hf, Ht.
Qed.

(** What the logged-in user reads back after a save. *)
Lemma getChatSessions_saved c st cu first rest i p t :
  currentUser st = Some cu → currentMessages st = first :: rest →
  findUser (username cu) (users st) = Some (i, p) →
  firstText first = Some t →
  getChatSessions (after (saveChatSession c st)) =
    newSession c (currentLoadedSessionId st) t (currentMessages st)
    :: otherSessions (currentLoadedSessionId st) (chatHistory p).
Proof.
  intros Hu Hm Hf Ht.
  rewrite (saveChatSession_saves c st cu first rest i p t) by done.
  unfold getChatSessions. simpl. rewrite Hu.
  by erewrite findUser_insert.
Qed.

(** A save changes neither the conversation nor the identity. *)
Lemma saveChatSession_frame c st :
  let st' := after (saveChatSession c st) in
  currentUser st' = currentUser st ∧ currentMessages st' = currentMessages st ∧
  currentLoadedSessionId st' = currentLoadedSessionId st ∧
  sessionUser st' = sessionUser st ∧ messagesEl st' = messagesEl st ∧
  chat st' = chat st.
Proof.
  unfold saveChatSession.
  destruct (currentUser st) as [cu|] eqn:Hu; [|by simpl; rewrite Hu].
  destruct (currentMessages st) as [|m ms] eqn:Hm; [by simpl; rewrite Hu, Hm|].
  destruct (findUser (username cu) (users st)) as [[i p]|];
    [|by simpl; rewrite Hu, Hm].
  destruct (firstText m); simpl; by rewrite ?Hu, ?Hm.
Qed.

(** ** Saving twice *)




(** A conversation without persisted id is added to the stored list by each
    save, and nothing is removed. *)
Lemma save_new_conversation_adds c st cu first rest i p t :
  currentUser st = Some cu → currentLoadedSessionId st = None →
  currentMessages st = first :: rest →
  findUser (username cu) (users st) = Some (i, p) → firstText first = Some t →
  getChatSessions (after (saveChatSession c st)) =
    newSession c None t (first :: rest) :: chatHistory p ∧
  currentLoadedSessionId (after (saveChatSession c st)) = None.
Proof.
  intros Hu Hcur Hm Hf Ht. split.
  - rewrite (getChatSessions_saved c st cu first rest i p t) by done.
    by rewrite Hcur, Hm, otherSessions_None.
  - by rewrite (saveChatSession_saves c st cu first rest i p t).
Qed.

Lemma save_new_conversation_adds_witness :
  getChatSessions (after (saveChatSession (clockAt 2000) aliceChatting)) =
    newSession (clockAt 2000) None (u16 "hi") greeting :: [] ∧
  currentLoadedSessionId (after (saveChatSession (clockAt 2000) aliceChatting)) = None.
Proof.
  apply (save_new_conversation_adds (clockAt 2000) aliceChatting alice
           (says user "hi") [says model "hello"] 0 alice (u16 "hi"));
    reflexivity.
Defined.


(** ** Sending a message *)

Lemma replaceAll_app c b x y :
  replaceAll c b (x ++ y) = replaceAll c b x ++ replaceAll c b y.
Proof. unfold replaceAll. apply bind_app. Qed.

Lemma foldl_onChunk fragments typing html responseText :
  foldl onChunk (typing, html, responseText) fragments =
    (match fragments with [] => typing | _ => false end,
     html ++ lineBreaks (concat fragments),
     responseText ++ concat fragments).
Proof.
  revert typing html responseText.
  induction fragments as [|f fs IH]; intros typing html responseText; simpl.
  - by rewrite !app_nil_r.
  - rewrite IH. unfold lineBreaks. rewrite replaceAll_app, !app_assoc.
    by destruct fs.
Qed.

Lemma renderMessage_userMessage st st' prompt :
  renderMessage st' (userMessageOf prompt st) =
    Some (MessageP
            {| meta_avatar := avatar (getCurrentUserProfile st);
               meta_username :=
                 replaceAll 62 (u16 "&gt;")
                   (replaceAll 60 (u16 "&lt;") (username (getCurrentUserProfile st))) |}
            (lineBreaks prompt)).
Proof. reflexivity. Qed.

Lemma truthy_true s : s ≠ [] → truthy s = true.
Proof. intros. unfold truthy. by apply bool_decide_eq_true. Qed.

(** A request that completes appends the user's message and the assembled
    answer. *)
Lemma formSubmit_completed value fragments st :
  trim value ≠ [] →
  ∃ p,
    formSubmit value {| chunks := fragments; rejected := false |} st =
      Returns
        (set_currentMessages
           (currentMessages st ++
            [userMessageOf (trim value) st; modelMessageOf (concat fragments)])
           (set_messagesEl
              (messagesEl st ++
               [p; ResponseP (bool_decide (fragments = []))
                     (lineBreaks (concat fragments))])
              st)).
Proof.
  intros Hp. unfold formSubmit. rewrite truthy_true by done.
  rewrite renderMessage_userMessage, foldl_onChunk. simpl.
  eexists. rewrite <- app_assoc. simpl. by destruct fragments.
Qed.

(** C2, as the code has it: when the model's stream fails after any number of
    fragments, the handler returns, the request has appended no model message,
    and the conversation is the one from before the send followed by the
    user's message, which was pushed before the request was made (its length
    is one more than before the send); the fragments received stay visible in
    the transcript view only, followed by the error notice. *)
Theorem failed_stream_keeps_user_message value fragments st :
  trim value ≠ [] →
  ∃ st' p,
    formSubmit value {| chunks := fragments; rejected := true |} st = Returns st' ∧
    currentMessages st' = currentMessages st ++ [userMessageOf (trim value) st] ∧
    length (currentMessages st') = S (length (currentMessages st)) ∧
    messagesEl st' =
      messagesEl st ++
      [p; ResponseP false (lineBreaks (concat fragments) ++ errorNotice)] ∧
    users st' = users st.
Proof.
  intros Hp. unfold formSubmit. rewrite truthy_true by done.
  rewrite renderMessage_userMessage, foldl_onChunk. simpl.
  eexists _, _. split_and!; [done|done| |done|done].
  simpl. rewrite length_app. simpl. lia.
Qed.

Lemma failed_stream_keeps_user_message_witness :
  ∃ st' p,
    formSubmit (u16 " hi ") {| chunks := [u16 "hel"]; rejected := true |} aliceChatting
      = Returns st' ∧
    currentMessages st' =
      currentMessages aliceChatting ++ [userMessageOf (trim (u16 " hi ")) aliceChatting] ∧
    length (currentMessages st') = S (length (currentMessages aliceChatting)) ∧
    messagesEl st' =
      messagesEl aliceChatting ++
      [p; ResponseP false (lineBreaks (concat [u16 "hel"]) ++ errorNotice)] ∧
    users st' = users aliceChatting.
Proof.
  apply (failed_stream_keeps_user_message (u16 " hi ") [u16 "hel"] aliceChatting).
  discriminate.
Defined.

(** C2 as stated fails: after a stream that fails, with or without fragments,
    the conversation is longer than before the send. *)
Lemma failed_send_lengthens_conversation :
  length (currentMessages (initialState [] None)) = 0 ∧
  length (currentMessages
            (after (formSubmit (u16 "hi") {| chunks := []; rejected := true |}
                      (initialState [] None)))) = 1 ∧
  length (currentMessages
            (after (formSubmit (u16 "hi") {| chunks := [u16 "hel"]; rejected := true |}
                      (initialState [] None)))) = 1.
Proof. split_and!; reflexivity. Qed.

(** ** The scenario *)

(** C3, as the code has it: from empty storages, signing up alice leaves one
    stored profile, alice's, with no session; sending hi, answered in the
    fragments hel and lo, leaves the conversation user hi, model hello; a save
    gives alice one session titled hi...; starting a new chat saves that
    conversation once more, so after sending bye and saving alice has three
    sessions, newest first: bye, hi, hi. Without the explicit save, the same
    run ends with two sessions: bye, then hi. *)
Theorem scenario_alice pw c1 c2 c3 reply :
  users (signedUp pw) =
    [{| username := u16 "alice"; avatar := person; password := Some pw;
        chatHistory := [] |}] ∧
  (λ m, (role m, parts m)) <$> currentMessages (saidHi pw) =
    [(user, [{| text := u16 "hi" |}]); (model, [{| text := u16 "hello" |}])] ∧
  title <$> getChatSessions (savedHi pw c1) = [u16 "hi..."] ∧
  (λ s, (session_id s, title s)) <$> getChatSessions (scenario pw c1 c2 c3 reply) =
    [(now c3, u16 "bye..."); (now c2, u16 "hi..."); (now c1, u16 "hi...")] ∧
  (λ s, (session_id s, title s)) <$> getChatSessions (scenarioSavedOnLeave pw c2 c3 reply) =
    [(now c3, u16 "bye..."); (now c2, u16 "hi...")].
Proof.
  split_and!; [by vm_compute..| |].
  - unfold scenario, saidBye.
    destruct (formSubmit_completed (u16 "bye") reply
                (after (newChat c2 (savedHi pw c1)))) as [p ->]; [by vm_compute|].
    by vm_compute.
  - unfold scenarioSavedOnLeave, saidBye.
    destruct (formSubmit_completed (u16 "bye") reply
                (after (newChat c2 (saidHi pw)))) as [p ->]; [by vm_compute|].
    by vm_compute.
Qed.

(** C3 as stated fails: at the end of the scenario alice has three sessions,
    not two. *)
Lemma scenario_ends_with_three_sessions :
  length (getChatSessions
            (scenario (u16 "pw") (clockAt 1000) (clockAt 2000) (clockAt 3000)
               [u16 "see you"])) ≠ 2 ∧
  title <$> getChatSessions
              (scenario (u16 "pw") (clockAt 1000) (clockAt 2000) (clockAt 3000)
                 [u16 "see you"])
  = [u16 "bye..."; u16 "hi..."; u16 "hi..."].
Proof. split; by vm_compute. Qed.

(** ** Loading a saved session *)

Lemma renderMessagesTo_messagesEl_after messages st :
  ∃ ps, after (renderMessagesTo_messagesEl messages st) = set_messagesEl ps st.
Proof.
  unfold renderMessagesTo_messagesEl.
  destruct (renderMessages st messages) as [ps [|]]; by exists ps.
Qed.

(** Replaces the state after a rendering in the goal by the state before it
    with its transcript set to [ps]. *)
Ltac rendered ps :=
  match goal with
  | |- context [renderMessagesTo_messagesEl ?ms ?st0] =>
      destruct (renderMessagesTo_messagesEl_after ms st0) as [ps ->]
  end.


Lemma withId_otherSessions_same id l : withId id (otherSessions (Some id) l) = [].
Proof.
  rewrite otherSessions_Some. unfold withId.
  induction l as [|x l IH]; [done|].
  destruct (decide (session_id x = id)) as [Hx|Hx].
  - by rewrite filter_cons_False by auto.
  - rewrite filter_cons_True by done. by rewrite filter_cons_False.
Qed.








(** ** Saving before leaving a conversation *)



(** ** Searching the history *)


Section Search.

Variable toLowerCase : jsstring → jsstring.
Variable toLocaleString : jsstring → jsstring.

Lemma contentText_is_Some s :
  Forall (λ m, is_Some (firstText m)) (history s) → is_Some (contentText s).
Proof.
  intros H. unfold contentText. apply fmap_is_Some, mapM_is_Some.
  by apply Forall_forall; intros m Hm; eapply Forall_forall in H.
Qed.

Lemma sessionMatches_is_Some q s :
  Forall (λ m, is_Some (firstText m)) (history s) →
  is_Some (sessionMatches toLowerCase toLocaleString q s).
Proof.
  intros H. unfold sessionMatches.
  destruct (contentText_is_Some s H) as [c ->]. by eexists.
Qed.



End Search.


(** A query in capitals finds the session that says bye. *)
Example filteredSessions_bye :
  filteredSessions lowerLatin (λ d, d) (u16 "BYE") [greetingSession; farewellSession]
  = Some [farewellSession].
Proof. by vm_compute. Qed.

(** ** Signing up *)

(** A requested name that is already stored is refused: the error is shown
    and nothing else changes. *)
Lemma profileSubmit_duplicate value pw sel st :
  Exists (λ u, username u = trim value) (users st) →
  profileSubmit value pw sel st = set_signupError true st.
Proof. intros H. unfold profileSubmit. by rewrite bool_decide_eq_true_2. Qed.

(** A requested name that is not empty and not stored is stored as it is, so
    it repeats no stored name. *)
Lemma profileSubmit_named_fresh value pw sel st :
  trim value ≠ [] → trim value ∉ username <$> users st →
  NoDup (username <$> users st) →
  NoDup (username <$> users (profileSubmit value pw sel st)).
Proof.
  intros Hne Hfresh Hnd. unfold profileSubmit.
  rewrite bool_decide_eq_false_2.
  - simpl. rewrite fmap_app. simpl. unfold or_else. rewrite truthy_true by done.
    apply NoDup_app. split_and!; [done| |apply NoDup_singleton].
    intros x Hx ->%list_elem_of_singleton. done.
  - rewrite Exists_exists. intros (u & Hu & Hname). apply Hfresh.
    rewrite <- Hname. by apply list_elem_of_fmap_2.
Qed.

Lemma profileSubmit_duplicate_witness :
  profileSubmit (u16 " alice ") (u16 "other") None (initialState [alice] None)
  = set_signupError true (initialState [alice] None).
Proof.
  apply (profileSubmit_duplicate (u16 " alice ") (u16 "other") None
           (initialState [alice] None)).
  compute_done.
Defined.

Lemma profileSubmit_named_fresh_witness :
  NoDup (username <$> users (profileSubmit (u16 "bob") (u16 "pw") None
                               (initialState [alice] None))).
Proof.
  apply (profileSubmit_named_fresh (u16 "bob") (u16 "pw") None
           (initialState [alice] None)).
  - discriminate.
  - compute_done.
  - compute_done.
Defined.

(** C7 fails on the code: the duplicate check looks for the trimmed input,
    the profile stored is named by the trimmed input or, when that is empty,
    User. Two sign-ups with an empty name are both accepted and leave two
    profiles of the same name. *)
Theorem signup_twice_without_name :
  username <$> users (profileSubmit (u16 " ") (u16 "pw2") None
                        (profileSubmit (u16 "") (u16 "pw1") None
                           (initialState [] None)))
  = [u16 "User"; u16 "User"] ∧
  signupError (profileSubmit (u16 " ") (u16 "pw2") None
                 (profileSubmit (u16 "") (u16 "pw1") None (initialState [] None)))
  = false ∧
  ¬ NoDup (username <$> users (profileSubmit (u16 " ") (u16 "pw2") None
                                 (profileSubmit (u16 "") (u16 "pw1") None
                                    (initialState [] None)))).
Proof.
  split_and!; [by vm_compute..|].
  intros Hnd. apply NoDup_cons in Hnd as [Hx _]. apply Hx. by left.
Qed.

(** ** Process start *)

(** C8: at process start, when the marker holds a non-empty name that a stored
    profile has, the first profile of that name becomes the authenticated
    identity and the head of its session list, when it has one, is loaded as
    the active conversation under its id (a profile without sessions starts
    with an empty conversation and no persisted id); when there is no marker,
    or it is the empty string, or no stored profile has the name, the page
    starts unauthenticated with an empty conversation and no persisted id. *)
Theorem start_restores_session stored marker :
  (∀ name i p,
     marker = Some name → name ≠ [] → findUser name stored = Some (i, p) →
     currentUser (after (start stored marker)) = Some p ∧
     match chatHistory p with
     | latest :: _ =>
         currentMessages (after (start stored marker)) = history latest ∧
         currentLoadedSessionId (after (start stored marker)) = Some (session_id latest)
     | [] =>
         currentMessages (after (start stored marker)) = [] ∧
         currentLoadedSessionId (after (start stored marker)) = None
     end) ∧
  (marker = None ∨ marker = Some [] ∨
   (∃ name, marker = Some name ∧ Forall (λ u, username u ≠ name) stored) →
   currentUser (after (start stored marker)) = None ∧
   currentMessages (after (start stored marker)) = [] ∧
   currentLoadedSessionId (after (start stored marker)) = None).
Proof.
  split.
  - intros name i p -> Hne Hf. unfold start, checkCurrentUserSession. simpl.
    rewrite truthy_true, Hf by done.
    destruct (chatHistory p) as [|latest l]; [done|].
    rendered ps.
    done.
  - intros [->|[->|(name & -> & Hf%findUser_None)]];
      unfold start, checkCurrentUserSession; simpl.
    + done.
    + done.
    + rewrite Hf. by destruct (truthy name).
Qed.

Lemma start_restores_session_witness :
  currentUser (after (start (users aliceReturning) (Some (u16 "alice"))))
    = Some (set_chatHistory [greetingSession; farewellSession] alice) ∧
  currentMessages (after (start (users aliceReturning) (Some (u16 "alice"))))
    = history greetingSession ∧
  currentLoadedSessionId (after (start (users aliceReturning) (Some (u16 "alice"))))
    = Some (session_id greetingSession).
Proof.
  exact (proj1 (start_restores_session (users aliceReturning) (Some (u16 "alice")))
           (u16 "alice") 0 (set_chatHistory [greetingSession; farewellSession] alice)
           eq_refl ltac:(discriminate) eq_refl).
Defined.

(** The page alice finds when she comes back. *)
Example start_alice :
  currentUser (after (start (users aliceReturning) (Some (u16 "alice"))))
    = Some (set_chatHistory [greetingSession; farewellSession] alice) ∧
  currentMessages (after (start (users aliceReturning) (Some (u16 "alice")))) = greeting ∧
  currentLoadedSessionId (after (start (users aliceReturning) (Some (u16 "alice"))))
    = Some 1000%Z ∧
  currentUser (after (start (users aliceReturning) (Some (u16 "bob")))) = None ∧
  currentUser (after (start (users aliceReturning) None)) = None.
Proof. by vm_compute. Qed.

(** ** Logging in *)

Section Events.

Variable toLowerCase : jsstring → jsstring.
Variable toLocaleString : jsstring → jsstring.

Lemma formSubmit_users value response st :
  users (after (formSubmit value response st)) = users st.
Proof.
  unfold formSubmit. destruct (truthy (trim value)); [|done].
  rewrite renderMessage_userMessage, foldl_onChunk.
  by destruct (rejected response).
Qed.

Lemma renderChatHistoryList_after filter_ st :
  ∃ v, after (renderChatHistoryList toLowerCase toLocaleString filter_ st)
       = set_chatHistoryListEl v st.
Proof.
  unfold renderChatHistoryList. destruct (currentUser st); [|by eexists].
  destruct (filteredSessions _ _ _ _) as [[|s l]|]; by eexists.
Qed.

(** As long as nobody is authenticated no event writes the profile store. *)
Lemma handle_guest e st :
  currentUser st = None →
  currentUser (after (handle toLowerCase toLocaleString e st)) = None →
  users (after (handle toLowerCase toLocaleString e st)) = users st.
Proof.
  intros Hg. destruct e as [value response|c|s c|id|value|name pw|value pw sel|c];
    simpl.
  - intros _. apply formSubmit_users.
  - unfold newChat. by rewrite saveChatSession_guest.
  - unfold loadChat. rewrite saveChatSession_guest by done. simpl.
    rendered ps.
    done.
  - unfold deleteChatSession. by rewrite Hg.
  - destruct (renderChatHistoryList_after value st) as [v ->]. done.
  - unfold userLoginSubmit. by destruct (list_find _ _) as [[i u]|].
  - unfold profileSubmit. by destruct (bool_decide _).
  - unfold logout. by rewrite saveChatSession_guest.
Qed.

Lemma guestRun_cons e es st :
  guestRun toLowerCase toLocaleString (e :: es) st →
  currentUser st = None ∧
  currentUser (after (handle toLowerCase toLocaleString e st)) = None ∧
  guestRun toLowerCase toLocaleString es
    (after (handle toLowerCase toLocaleString e st)).
Proof.
  intros H. split_and!.
  - by apply (H [] (e :: es)).
  - by apply (H [e] es).
  - intros es1 es2 ->. by apply (H (e :: es1) es2).
Qed.

Lemma guestRun_users es st :
  guestRun toLowerCase toLocaleString es st →
  users (run toLowerCase toLocaleString es st) = users st.
Proof.
  revert st. induction es as [|e es IH]; intros st H; [done|].
  apply guestRun_cons in H as (Hg & Hg' & H').
  simpl. fold (run toLowerCase toLocaleString es
                 (after (handle toLowerCase toLocaleString e st))).
  rewrite IH by done. by apply handle_guest.
Qed.

Lemma guestRun_prefix es1 es2 st :
  guestRun toLowerCase toLocaleString (es1 ++ es2) st →
  guestRun toLowerCase toLocaleString es1 st.
Proof.
  intros H es3 es4 ->. apply (H es3 (es4 ++ es2)). by rewrite app_assoc.
Qed.

(** Every successful login resets the conversation, whatever it held, and
    writes nothing to the profile store. *)
Lemma userLoginSubmit_resets name pw st i u :
  list_find (λ u, username u = name ∧ password u = Some pw) (users st) = Some (i, u) →
  currentUser (userLoginSubmit name pw st) = Some u ∧
  sessionUser (userLoginSubmit name pw st) = Some (username u) ∧
  currentMessages (userLoginSubmit name pw st) = [] ∧
  currentLoadedSessionId (userLoginSubmit name pw st) = None ∧
  messagesEl (userLoginSubmit name pw st) = [] ∧
  users (userLoginSubmit name pw st) = users st.
Proof. intros H. unfold userLoginSubmit. by rewrite H. Qed.

(** A login that matches no stored name and password shows the error and
    changes nothing else: nobody is authenticated by it and the store is as it
    was. *)
Lemma userLoginSubmit_invalid name pw st :
  list_find (λ u, username u = name ∧ password u = Some pw) (users st) = None →
  userLoginSubmit name pw st = set_userLoginError true st.
Proof. intros H. unfold userLoginSubmit. by rewrite H. Qed.

(** C9: a successful login leaves the conversation empty and without a
    persisted id whatever it held, and what was exchanged before it, while
    nobody was authenticated, was never written to the profile store: the
    store is the same after every event of the guest run and after the
    login. *)
Theorem login_discards_guest_chat es st name pw i u :
  guestRun toLowerCase toLocaleString es st →
  list_find (λ u, username u = name ∧ password u = Some pw)
    (users (run toLowerCase toLocaleString es st)) = Some (i, u) →
  (∀ es1 es2, es = es1 ++ es2 →
     users (run toLowerCase toLocaleString es1 st) = users st) ∧
  currentUser (userLoginSubmit name pw (run toLowerCase toLocaleString es st)) = Some u ∧
  currentMessages (userLoginSubmit name pw (run toLowerCase toLocaleString es st)) = [] ∧
  currentLoadedSessionId
    (userLoginSubmit name pw (run toLowerCase toLocaleString es st)) = None ∧
  users (userLoginSubmit name pw (run toLowerCase toLocaleString es st)) = users st.
Proof.
  intros Hg Hfind.
  destruct (userLoginSubmit_resets name pw _ i u Hfind) as (Hu & _ & Hm & Hid & _ & Hus).
  split_and!; [|done..|].
  - intros es1 es2 ->. by apply guestRun_users, (guestRun_prefix es1 es2).
  - rewrite Hus. by apply guestRun_users.
Qed.

Lemma guestRun_nil st :
  currentUser st = None → guestRun toLowerCase toLocaleString [] st.
Proof. intros H es1 es2 Hes. by destruct es1. Qed.

Lemma guestRun_step e es st :
  currentUser st = None →
  guestRun toLowerCase toLocaleString es
    (after (handle toLowerCase toLocaleString e st)) →
  guestRun toLowerCase toLocaleString (e :: es) st.
Proof.
  intros Hg H es1 es2 Hes. destruct es1 as [|e' es1]; [done|].
  simpl in Hes. injection Hes as <- ->. by apply (H es1 es2).
Qed.

End Events.

Lemma login_discards_guest_chat_witness :
  (∀ es1 es2, guestEvents = es1 ++ es2 →
     users (run lowerLatin (λ d, d) es1 (initialState [alice] None)) = [alice]) ∧
  currentUser (userLoginSubmit (u16 "alice") (u16 "pw")
                 (run lowerLatin (λ d, d) guestEvents (initialState [alice] None)))
    = Some alice ∧
  currentMessages (userLoginSubmit (u16 "alice") (u16 "pw")
                     (run lowerLatin (λ d, d) guestEvents (initialState [alice] None)))
    = [] ∧
  currentLoadedSessionId
    (userLoginSubmit (u16 "alice") (u16 "pw")
       (run lowerLatin (λ d, d) guestEvents (initialState [alice] None))) = None ∧
  users (userLoginSubmit (u16 "alice") (u16 "pw")
           (run lowerLatin (λ d, d) guestEvents (initialState [alice] None)))
    = [alice].
Proof.
  apply (login_discards_guest_chat lowerLatin (λ d, d) guestEvents
           (initialState [alice] None) (u16 "alice") (u16 "pw") 0 alice).
  - repeat (apply guestRun_step; [by vm_compute|]).
    apply guestRun_nil. by vm_compute.
  - by vm_compute.
Defined.

Lemma userLoginSubmit_invalid_witness :
  userLoginSubmit (u16 "alice") (u16 "guess") (initialState [alice] None)
  = set_userLoginError true (initialState [alice] None).
Proof.
  apply (userLoginSubmit_invalid (u16 "alice") (u16 "guess") (initialState [alice] None)).
  reflexivity.
Defined.

(** The guest's second conversation is on the page before the login. *)
Example guest_conversation_before_login :
  length (currentMessages
            (run lowerLatin (λ d, d) guestEvents (initialState [alice] None))) = 1.
Proof. by vm_compute. Qed.

(** ** Deleting a saved session *)

Section Delete.

Variable toLowerCase : jsstring → jsstring.
Variable toLocaleString : jsstring → jsstring.

(** C10: for an authenticated user whose profile is in the store,
    [deleteChatSession id] leaves in that profile's session list exactly the
    sessions whose id is not [id], in their order, changes no other field of
    the profile and no other profile of the store, and leaves identity and
    conversation as they were. *)
Theorem deleteChatSession_frame id st cu i p :
  currentUser st = Some cu →
  findUser (username cu) (users st) = Some (i, p) →
  ∃ p',
    users (after (deleteChatSession toLowerCase toLocaleString id st)) !! i = Some p' ∧
    chatHistory p' = filter (λ s, session_id s ≠ id) (chatHistory p) ∧
    (∀ s, s ∈ chatHistory p' ↔ s ∈ chatHistory p ∧ session_id s ≠ id) ∧
    chatHistory p' `sublist_of` chatHistory p ∧
    username p' = username p ∧ avatar p' = avatar p ∧ password p' = password p ∧
    length (users (after (deleteChatSession toLowerCase toLocaleString id st)))
      = length (users st) ∧
    (∀ j, j ≠ i →
       users (after (deleteChatSession toLowerCase toLocaleString id st)) !! j
       = users st !! j) ∧
    currentUser (after (deleteChatSession toLowerCase toLocaleString id st))
      = currentUser st ∧
    currentMessages (after (deleteChatSession toLowerCase toLocaleString id st))
      = currentMessages st ∧
    currentLoadedSessionId (after (deleteChatSession toLowerCase toLocaleString id st))
      = currentLoadedSessionId st.
Proof.
  intros Hu Hf. unfold deleteChatSession. rewrite Hu, Hf.
  match goal with
  | |- context [renderChatHistoryList _ _ ?f ?st0] =>
      destruct (renderChatHistoryList_after toLowerCase toLocaleString f st0)
        as [v ->]
  end.
  simpl. apply findUser_lookup in Hf as [Hi Hn].
  eexists. split_and!.
  - apply list_lookup_insert_eq. by eapply lookup_lt_Some.
  - done.
  - intros s. simpl. rewrite list_elem_of_filter. tauto.
  - apply sublist_filter.
  - done.
  - done.
  - done.
  - apply length_insert.
  - intros j Hj. by apply list_lookup_insert_ne.
  - done.
  - done.
  - done.
Qed.

End Delete.

Lemma deleteChatSession_frame_witness :
  ∃ p',
    users (after (deleteChatSession lowerLatin (λ d, d) 1000 aliceReturning)) !! 0
      = Some p' ∧
    chatHistory p' =
      filter (λ s, session_id s ≠ 1000%Z) [greetingSession; farewellSession] ∧
    (∀ s, s ∈ chatHistory p' ↔
          s ∈ [greetingSession; farewellSession] ∧ session_id s ≠ 1000%Z) ∧
    chatHistory p' `sublist_of` [greetingSession; farewellSession] ∧
    username p' = u16 "alice" ∧ avatar p' = person ∧ password p' = Some (u16 "pw") ∧
    length (users (after (deleteChatSession lowerLatin (λ d, d) 1000 aliceReturning)))
      = length (users aliceReturning) ∧
    (∀ j, j ≠ 0 →
       users (after (deleteChatSession lowerLatin (λ d, d) 1000 aliceReturning)) !! j
       = users aliceReturning !! j) ∧
    currentUser (after (deleteChatSession lowerLatin (λ d, d) 1000 aliceReturning))
      = currentUser aliceReturning ∧
    currentMessages (after (deleteChatSession lowerLatin (λ d, d) 1000 aliceReturning))
      = currentMessages aliceReturning ∧
    currentLoadedSessionId
      (after (deleteChatSession lowerLatin (λ d, d) 1000 aliceReturning))
      = currentLoadedSessionId aliceReturning.
Proof.
  apply (deleteChatSession_frame lowerLatin (λ d, d) 1000 aliceReturning alice 0
           (set_chatHistory [greetingSession; farewellSession] alice));
    reflexivity.
Defined.

(** Deleting the loaded session leaves the other one. *)
Example deleteChatSession_alice :
  getChatSessions (after (deleteChatSession lowerLatin (λ d, d) 1000 aliceReturning))
  = [farewellSession].
Proof. by vm_compute. Qed.

(** * Further properties of the page *)

(** ** What a save stores *)

Lemma set_chatHistory_same p : set_chatHistory (chatHistory p) p = p.
Proof. by destruct p. Qed.

Lemma idOrNow_cases cur t :
  idOrNow cur t = t ∨ cur = Some (idOrNow cur t).
Proof.
  unfold idOrNow. destruct cur as [i|]; [|by left].
  destruct (decide (i = 0%Z)); [by left|by right].
Qed.



(** A save keeps the ids of the user's list distinct, provided the clock does
    not read an id that is already stored. *)
Theorem saveChatSession_ids_distinct c st :
  NoDup (session_id <$> getChatSessions st) →
  now c ∉ session_id <$> getChatSessions st →
  NoDup (session_id <$> getChatSessions (after (saveChatSession c st))).
Proof.
  intros Hnd Hfresh.
  destruct (currentUser st) as [cu|] eqn:Hu;
    [|by rewrite saveChatSession_guest].
  destruct (currentMessages st) as [|first rest] eqn:Hm;
    [by rewrite saveChatSession_empty|].
  destruct (findUser (username cu) (users st)) as [[i p]|] eqn:Hf; cycle 1.
  { unfold saveChatSession. by rewrite Hu, Hm, Hf. }
  destruct (firstText first) as [t|] eqn:Ht; cycle 1.
  { unfold saveChatSession. by rewrite Hu, Hm, Hf, Ht. }
  rewrite (getChatSessions_saved c st cu first rest i p t) by done.
  assert (getChatSessions st = chatHistory p) as Hg
    by (unfold getChatSessions; by rewrite Hu, Hf).
  rewrite Hg in Hnd, Hfresh. rewrite fmap_cons. apply NoDup_cons. split.
  - simpl. intros Hin.
    apply list_elem_of_fmap in Hin as (s & Hid & Hs).
    unfold otherSessions in Hs. apply list_elem_of_filter in Hs as [Hne Hs].
    destruct (idOrNow_cases (currentLoadedSessionId st) (now c)) as [Hnow|Hcur].
    + apply Hfresh. rewrite <- Hnow, Hid. by apply list_elem_of_fmap_2.
    + apply Hne. by rewrite Hcur, Hid.
  - unfold otherSessions.
    apply (sublist_NoDup _ _ Hnd), fmap_sublist, sublist_filter.
Qed.

Lemma saveChatSession_ids_distinct_witness :
  NoDup (session_id <$>
         getChatSessions (after (saveChatSession (clockAt 2000) aliceReturning))).
Proof.
  apply (saveChatSession_ids_distinct (clockAt 2000) aliceReturning); compute_done.
Defined.

(** ** Deleting, and saving then deleting *)

Lemma filter_all {A} (P : A → Prop) `{!∀ x, Decision (P x)} (l : list A) :
  Forall P l → filter P l = l.
Proof.
  induction 1 as [|x l Hx Hl IH]; [done|].
  rewrite filter_cons_True by done. by rewrite IH.
Qed.

Lemma getChatSessions_found st cu i p :
  currentUser st = Some cu → findUser (username cu) (users st) = Some (i, p) →
  getChatSessions st = chatHistory p.
Proof. intros Hu Hf. unfold getChatSessions. by rewrite Hu, Hf. Qed.

Lemma getChatSessions_not_found st cu :
  currentUser st = Some cu → findUser (username cu) (users st) = None →
  getChatSessions st = [].
Proof. intros Hu Hf. unfold getChatSessions. by rewrite Hu, Hf. Qed.

Lemma getChatSessions_guest st : currentUser st = None → getChatSessions st = [].
Proof. intros Hu. unfold getChatSessions. by rewrite Hu. Qed.

Section DeleteMore.

Variable toLowerCase : jsstring → jsstring.
Variable toLocaleString : jsstring → jsstring.

Lemma deleteChatSession_found id st cu i p :
  currentUser st = Some cu → findUser (username cu) (users st) = Some (i, p) →
  ∃ v,
    after (deleteChatSession toLowerCase toLocaleString id st) =
      set_chatHistoryListEl v
        (set_users
           (<[i := set_chatHistory
                     (filter (λ s, session_id s ≠ id) (chatHistory p)) p]>
              (users st))
           st).
Proof.
  intros Hu Hf. unfold deleteChatSession. rewrite Hu, Hf.
  apply renderChatHistoryList_after.
Qed.

Lemma deleteChatSession_not_found id st :
  currentUser st = None ∨
  (∃ cu, currentUser st = Some cu ∧ findUser (username cu) (users st) = None) →
  deleteChatSession toLowerCase toLocaleString id st = Returns st.
Proof.
  unfold deleteChatSession. intros [->|(cu & -> & ->)]; done.
Qed.

(** After [deleteChatSession id] the user reads back no session of that id,
    whoever is logged in and whatever the store holds, and deleting the same
    id again leaves the profile store as the first deletion left it. *)
Theorem deleteChatSession_removes_all id st :
  withId id
    (getChatSessions (after (deleteChatSession toLowerCase toLocaleString id st)))
  = [] ∧
  users (after (deleteChatSession toLowerCase toLocaleString id
                  (after (deleteChatSession toLowerCase toLocaleString id st))))
  = users (after (deleteChatSession toLowerCase toLocaleString id st)).
Proof.
  destruct (currentUser st) as [cu|] eqn:Hu; cycle 1.
  { rewrite !deleteChatSession_not_found by auto.
    split; [|done]. by rewrite getChatSessions_guest. }
  destruct (findUser (username cu) (users st)) as [[i p]|] eqn:Hf; cycle 1.
  { rewrite !deleteChatSession_not_found by eauto.
    split; [|done]. by erewrite getChatSessions_not_found. }
  destruct (deleteChatSession_found id st cu i p Hu Hf) as [v ->].
  set (p' := set_chatHistory (filter (λ s, session_id s ≠ id) (chatHistory p)) p).
  set (st1 := set_chatHistoryListEl v _).
  assert (findUser (username cu) (users st1) = Some (i, p')) as Hf1
    by (by apply (findUser_insert _ _ _ p)).
  split.
  - rewrite (getChatSessions_found st1 cu i p') by done.
    simpl. rewrite <- otherSessions_Some. apply withId_otherSessions_same.
  - destruct (deleteChatSession_found id st1 cu i p' Hu Hf1) as [v' ->].
    simpl. rewrite list_insert_insert_eq. f_equal. unfold p', set_chatHistory.
    simpl. f_equal. rewrite <- !otherSessions_Some. apply otherSessions_idemp.
Qed.

(** Deleting an id that none of the user's sessions carries leaves the profile
    store as it is. *)
Theorem deleteChatSession_absent id st :
  id ∉ session_id <$> getChatSessions st →
  users (after (deleteChatSession toLowerCase toLocaleString id st)) = users st.
Proof.
  intros Hid.
  destruct (currentUser st) as [cu|] eqn:Hu; cycle 1.
  { by rewrite deleteChatSession_not_found by auto. }
  destruct (findUser (username cu) (users st)) as [[i p]|] eqn:Hf; cycle 1.
  { by rewrite deleteChatSession_not_found by eauto. }
  destruct (deleteChatSession_found id st cu i p Hu Hf) as [v ->]. simpl.
  rewrite (getChatSessions_found st cu i p) in Hid by done.
  rewrite filter_all, set_chatHistory_same.
  - apply list_insert_id. by apply findUser_lookup in Hf as [? _].
  - apply Forall_forall. intros s Hs Heq. apply Hid. rewrite <- Heq.
    by apply list_elem_of_fmap_2.
Qed.

(** Saving a conversation that has no persisted id and then deleting the id
    the clock gave it restores the profile store, provided that id was not
    stored before. *)
Theorem save_then_delete c st :
  currentLoadedSessionId st = None →
  now c ∉ session_id <$> getChatSessions st →
  users (after (deleteChatSession toLowerCase toLocaleString (now c)
                  (after (saveChatSession c st))))
  = users st.
Proof.
  intros Hcur Hfresh.
  assert (∀ st', users st' = users st → currentUser st' = currentUser st →
            users (after (deleteChatSession toLowerCase toLocaleString (now c) st'))
            = users st) as Hsame.
  { intros st' Hus Hcu.
    destruct (currentUser st) as [cu|] eqn:Hu; cycle 1.
    { by rewrite deleteChatSession_not_found by auto. }
    destruct (findUser (username cu) (users st)) as [[i p]|] eqn:Hf; cycle 1.
    { rewrite deleteChatSession_not_found; [done|]. right. exists cu.
      by rewrite Hus. }
    rewrite <- Hus in Hf.
    destruct (deleteChatSession_found (now c) st' cu i p Hcu Hf) as [v ->].
    simpl. rewrite Hus in *.
    rewrite (getChatSessions_found st cu i p) in Hfresh by done.
    rewrite filter_all, set_chatHistory_same.
    - apply list_insert_id. by apply findUser_lookup in Hf as [? _].
    - apply Forall_forall. intros s Hs Heq. apply Hfresh. rewrite <- Heq.
      by apply list_elem_of_fmap_2. }
  destruct (currentUser st) as [cu|] eqn:Hu; cycle 1.
  { rewrite saveChatSession_guest by done. by apply Hsame. }
  destruct (currentMessages st) as [|first rest] eqn:Hm.
  { rewrite saveChatSession_empty by done. by apply Hsame. }
  destruct (findUser (username cu) (users st)) as [[i p]|] eqn:Hf; cycle 1.
  { unfold saveChatSession. rewrite Hu, Hm, Hf. by apply Hsame. }
  destruct (firstText first) as [t|] eqn:Ht; cycle 1.
  { unfold saveChatSession. rewrite Hu, Hm, Hf, Ht. by apply Hsame. }
  rewrite (saveChatSession_saves c st cu first rest i p t) by done.
  rewrite Hcur, otherSessions_None. simpl.
  set (p1 := set_chatHistory _ p). set (st1 := set_users _ st).
  assert (findUser (username cu) (users st1) = Some (i, p1)) as Hf1
    by (by apply (findUser_insert _ _ _ p)).
  destruct (deleteChatSession_found (now c) st1 cu i p1 Hu Hf1) as [v ->].
  simpl. rewrite list_insert_insert_eq.
  rewrite (getChatSessions_found st cu i p) in Hfresh by done.
  rewrite filter_cons_False by (simpl; unfold idOrNow; tauto).
  rewrite filter_all.
  - unfold p1. change (set_chatHistory (chatHistory p) (set_chatHistory _ p))
      with (set_chatHistory (chatHistory p) p).
    rewrite set_chatHistory_same.
    apply list_insert_id. by apply findUser_lookup in Hf as [? _].
  - apply Forall_forall. intros s Hs Heq. apply Hfresh. rewrite <- Heq.
    by apply list_elem_of_fmap_2.
Qed.

End DeleteMore.

Lemma deleteChatSession_absent_witness :
  users (after (deleteChatSession lowerLatin (λ d, d) 555 aliceReturning))
  = users aliceReturning.
Proof.
  apply (deleteChatSession_absent lowerLatin (λ d, d) 555 aliceReturning).
  compute_done.
Defined.

Lemma save_then_delete_witness :
  users (after (deleteChatSession lowerLatin (λ d, d) (now (clockAt 2000))
                  (after (saveChatSession (clockAt 2000) aliceChatting))))
  = users aliceChatting.
Proof.
  apply (save_then_delete lowerLatin (λ d, d) (clockAt 2000) aliceChatting).
  - reflexivity.
  - compute_done.
Defined.

(** ** Reloading the page *)

(** The state [main] reaches on the storages a state leaves behind. *)
Lemma start_found stored name i p :
  name ≠ [] → findUser name stored = Some (i, p) →
  currentUser (after (start stored (Some name))) = Some p ∧
  currentMessages (after (start stored (Some name))) =
    default [] (history <$> head (chatHistory p)) ∧
  currentLoadedSessionId (after (start stored (Some name))) =
    session_id <$> head (chatHistory p).
Proof.
  intros Hne Hf. unfold start, checkCurrentUserSession. simpl.
  rewrite truthy_true, Hf by done.
  destruct (chatHistory p) as [|latest l]; [done|].
  rendered ps. done.
Qed.



Lemma findUser_unique name us i u :
  NoDup (username <$> us) → us !! i = Some u → username u = name →
  findUser name us = Some (i, u).
Proof.
  intros Hnd Hi Hn. apply findUser_Some. split_and!; [done..|].
  intros j q Hj Hlt Hq.
  assert (i = j); [|lia].
  apply (NoDup_lookup (username <$> us) i j name); [done|..];
    rewrite list_lookup_fmap.
  - by rewrite Hi, <- Hn.
  - by rewrite Hj, <- Hq.
Qed.

(** With distinct stored usernames, a reload after a successful login
    authenticates the profile that logged in. *)
Theorem login_then_reload name pw st i u :
  list_find (λ u, username u = name ∧ password u = Some pw) (users st) = Some (i, u) →
  name ≠ [] → NoDup (username <$> users st) →
  currentUser
    (after (start (users (userLoginSubmit name pw st))
              (sessionUser (userLoginSubmit name pw st))))
  = Some u.
Proof.
  intros Hfind Hne Hnd. unfold userLoginSubmit. rewrite Hfind. simpl.
  apply list_find_Some in Hfind as (Hi & [Hn _] & _).
  rewrite Hn.
  by destruct (start_found (users st) name i u Hne (findUser_unique _ _ _ _ Hnd Hi Hn))
    as (-> & _).
Qed.

Lemma login_then_reload_witness :
  currentUser
    (after (start (users (userLoginSubmit (u16 "alice") (u16 "pw")
                            (initialState [alice] None)))
              (sessionUser (userLoginSubmit (u16 "alice") (u16 "pw")
                              (initialState [alice] None)))))
  = Some alice.
Proof.
  apply (login_then_reload (u16 "alice") (u16 "pw") (initialState [alice] None)
           0 alice).
  - reflexivity.
  - discriminate.
  - compute_done.
Defined.

(** A reload after an accepted sign-up under a name that is not empty
    authenticates the new profile, with an empty conversation. *)
Theorem signup_then_reload value pw sel st :
  trim value ≠ [] → ¬ Exists (λ u, username u = trim value) (users st) →
  let st' := profileSubmit value pw sel st in
  currentUser st' =
    Some {| username := trim value; avatar := or_else (default [] sel) DEFAULT_AVATAR;
            password := Some pw; chatHistory := [] |} ∧
  currentUser (after (start (users st') (sessionUser st'))) = currentUser st' ∧
  currentMessages (after (start (users st') (sessionUser st'))) = [].
Proof.
  intros Hne Hfresh. unfold profileSubmit.
  rewrite bool_decide_eq_false_2 by done. simpl.
  assert (or_else (trim value) (u16 "User") = trim value) as Hor
    by (unfold or_else; by rewrite truthy_true).
  rewrite !Hor.
  set (newUser := {| username := trim value; avatar := _; password := _;
                     chatHistory := [] |}).
  split; [done|].
  assert (findUser (trim value) (users st ++ [newUser])
          = Some (length (users st), newUser)) as Hf.
  { apply findUser_Some. split_and!.
    - by apply list_lookup_middle.
    - done.
    - intros j q Hj Hlt Hq. rewrite lookup_app_l in Hj by done.
      apply Hfresh, Exists_exists. exists q. split; [|done].
      by eapply list_elem_of_lookup_2. }
  destruct (start_found _ _ _ _ Hne Hf) as (H1 & H2 & _).
  split; [exact H1|exact H2].
Qed.

Lemma signup_then_reload_witness :
  currentUser (profileSubmit (u16 "bob") (u16 "pw") None (initialState [alice] None)) =
    Some {| username := trim (u16 "bob");
            avatar := or_else (default [] None) DEFAULT_AVATAR;
            password := Some (u16 "pw"); chatHistory := [] |} ∧
  currentUser
    (after (start (users (profileSubmit (u16 "bob") (u16 "pw") None
                            (initialState [alice] None)))
              (sessionUser (profileSubmit (u16 "bob") (u16 "pw") None
                              (initialState [alice] None)))))
  = currentUser (profileSubmit (u16 "bob") (u16 "pw") None (initialState [alice] None)) ∧
  currentMessages
    (after (start (users (profileSubmit (u16 "bob") (u16 "pw") None
                            (initialState [alice] None)))
              (sessionUser (profileSubmit (u16 "bob") (u16 "pw") None
                              (initialState [alice] None)))))
  = [].
Proof.
  apply (signup_then_reload (u16 "bob") (u16 "pw") None (initialState [alice] None)).
  - discriminate.
  - compute_done.
Defined.

(** With two stored profiles of one name, a reload after the second one logged
    in authenticates the first one. *)
Example login_then_reload_same_name :
  currentUser
    (after (start (users (userLoginSubmit (u16 "User") (u16 "pw2")
                            (profileSubmit (u16 " ") (u16 "pw2") None
                               (profileSubmit (u16 "") (u16 "pw1") None
                                  (initialState [] None)))))
              (Some (u16 "User"))))
  = Some {| username := u16 "User"; avatar := DEFAULT_AVATAR;
            password := Some (u16 "pw1"); chatHistory := [] |}.
Proof. by vm_compute. Qed.

(** ** Sending, whatever the stream does *)

Lemma trimStart_nil_iff s :
  trimStart s = [] ↔ Forall (λ c, isWhiteSpace c = true) s.
Proof.
  induction s as [|c s IH]; simpl.
  - split; [by constructor|done].
  - destruct (isWhiteSpace c) eqn:Hc.
    + rewrite IH. split; [by constructor|by inv 1].
    + split; [done|]. inv 1. congruence.
Qed.

Lemma trimStart_head s c r : trimStart s = c :: r → isWhiteSpace c = false.
Proof.
  induction s as [|x s IH]; simpl; [done|].
  destruct (isWhiteSpace x) eqn:Hx; [done|]. by intros [= <- _].
Qed.

Lemma trim_nil_iff s : trim s = [] ↔ Forall (λ c, isWhiteSpace c = true) s.
Proof.
  unfold trim. split.
  - intros H. apply (f_equal reverse) in H. rewrite reverse_involutive in H.
    change (reverse []) with (@nil N) in H.
    apply trimStart_nil_iff in H. rewrite Forall_reverse in H.
    destruct (trimStart s) as [|c r] eqn:Hs; [by apply trimStart_nil_iff|].
    apply trimStart_head in Hs. inv H. congruence.
  - intros H. apply trimStart_nil_iff in H. by rewrite H.
Qed.

(** What a submit with a prompt does, for every stream. *)
Lemma formSubmit_sent value response st :
  trim value ≠ [] →
  ∃ st' ps,
    formSubmit value response st = Returns st' ∧
    st' =
      set_currentMessages
        (currentMessages st ++
         userMessageOf (trim value) st
         :: (if rejected response then []
             else [modelMessageOf (concat (chunks response))]))
        (set_messagesEl (messagesEl st ++ ps) st).
Proof.
  intros Hp. unfold formSubmit. rewrite truthy_true by done.
  rewrite renderMessage_userMessage, foldl_onChunk. simpl.
  destruct (rejected response); eexists _, _; (split; [done|]).
  - done.
  - by rewrite <- app_assoc.
Qed.

(** A submit leaves the page exactly as it was if and only if the input
    consists of white space only (the empty input included): nothing is
    appended, shown or requested. *)
Theorem formSubmit_blank_iff value response st :
  formSubmit value response st = Returns st ↔
  Forall (λ c, isWhiteSpace c = true) value.
Proof.
  rewrite <- trim_nil_iff. split.
  - intros H. destruct (decide (trim value = [])) as [|Hne]; [done|].
    destruct (formSubmit_sent value response st Hne) as (st' & ps & Hs & ->).
    rewrite Hs in H. injection H as H.
    apply (f_equal (length ∘ currentMessages)) in H. simpl in H.
    rewrite length_app in H. simpl in H. lia.
  - intros H. unfold formSubmit, truthy. by rewrite H.
Qed.


(** A stream that completes appends the prompt, tagged with the profile
    acting at that time, and one model message whose text is the fragments
    put together. A stream that completes without any fragment appends a model
    message with empty text and leaves the typing indicator in the
    transcript. *)
Theorem formSubmit_completed_answer value fragments st :
  trim value ≠ [] →
  ∃ st' p,
    formSubmit value {| chunks := fragments; rejected := false |} st = Returns st' ∧
    currentMessages st' =
      currentMessages st ++
      [userMessageOf (trim value) st; modelMessageOf (concat fragments)] ∧
    renderMessage st' (userMessageOf (trim value) st) = Some p ∧
    messagesEl st' =
      messagesEl st ++
      [p; ResponseP (bool_decide (fragments = [])) (lineBreaks (concat fragments))] ∧
    (fragments = [] →
     last (currentMessages st') = Some (modelMessageOf []) ∧
     last (messagesEl st') = Some (ResponseP true [])).
Proof.
  intros Hp. unfold formSubmit. rewrite truthy_true by done.
  rewrite renderMessage_userMessage, foldl_onChunk. simpl.
  eexists _, _. split_and!; [done| |apply renderMessage_userMessage| |].
  - simpl. by rewrite <- app_assoc.
  - simpl. by destruct fragments.
  - intros ->. simpl. by rewrite <- !app_assoc, !last_app.
Qed.

Lemma formSubmit_completed_answer_witness :
  ∃ st' p,
    formSubmit (u16 "hi") {| chunks := []; rejected := false |}
      (initialState [] None) = Returns st' ∧
    currentMessages st' =
      currentMessages (initialState [] None) ++
      [userMessageOf (trim (u16 "hi")) (initialState [] None);
       modelMessageOf (concat [])] ∧
    renderMessage st' (userMessageOf (trim (u16 "hi")) (initialState [] None))
      = Some p ∧
    messagesEl st' =
      messagesEl (initialState [] None) ++
      [p; ResponseP (bool_decide ([] = @nil jsstring)) (lineBreaks (concat []))] ∧
    ([] = @nil jsstring →
     last (currentMessages st') = Some (modelMessageOf []) ∧
     last (messagesEl st') = Some (ResponseP true [])).
Proof.
  apply (formSubmit_completed_answer (u16 "hi") [] (initialState [] None)).
  discriminate.
Defined.

(** ** What is written into the transcript *)

Lemma replaceAll_removes c b s : c ∉ b → c ∉ replaceAll c b s.
Proof.
  intros Hb. unfold replaceAll. rewrite list_elem_of_bind.
  intros (x & Hin & _). destruct (decide (x = c)); [done|].
  apply list_elem_of_singleton in Hin. congruence.
Qed.

Lemma replaceAll_keeps_out x c b s :
  x ∉ s → x ∉ b → x ∉ replaceAll c b s.
Proof.
  intros Hs Hb. unfold replaceAll. rewrite list_elem_of_bind.
  intros (y & Hin & Hy). destruct (decide (y = c)); [done|].
  apply list_elem_of_singleton in Hin. congruence.
Qed.

(** [renderMessage] throws exactly on a message without parts; otherwise it
    yields a message paragraph whose user name holds neither [<] nor [>] and
    whose text holds no line feed. *)
Theorem renderMessage_escapes st m :
  match renderMessage st m with
  | Some (MessageP who txt) =>
      (60%N ∉ meta_username who) ∧ (62%N ∉ meta_username who) ∧ (10%N ∉ txt) ∧
      parts m ≠ []
  | Some (ResponseP _ _) => False
  | None => parts m = []
  end.
Proof.
  unfold renderMessage, firstText.
  destruct (parts m) as [|part rest]; [done|]. simpl. split_and!.
  - apply replaceAll_keeps_out; [|compute_done].
    apply replaceAll_removes. compute_done.
  - apply replaceAll_removes. compute_done.
  - apply replaceAll_removes. compute_done.
  - done.
Qed.

(** ** The history list *)

Lemma includes_prefix h n : n `prefix_of` h → includes h n = true.
Proof.
  intros Hp. destruct h; cbn [includes]; by rewrite (bool_decide_eq_true_2 _ Hp).
Qed.

(** [includes] finds contiguous occurrences. *)
Lemma includes_true h n : includes h n = true ↔ ∃ a b, h = a ++ n ++ b.
Proof.
  split.
  - induction h as [|x h IH]; cbn [includes]; case_bool_decide as Hp.
    + intros _. destruct Hp as [k ->]. by exists [], k.
    + done.
    + intros _. destruct Hp as [k ->]. by exists [], k.
    + intros (a & b & ->)%IH. by exists (x :: a), b.
  - intros (a & b & ->). induction a as [|x a IH].
    + apply includes_prefix. by exists b.
    + simpl. cbn [includes]. case_bool_decide; [done|]. apply IH.
Qed.

Section HistoryList.

Variable toLowerCase : jsstring → jsstring.
Variable toLocaleString : jsstring → jsstring.

Lemma filteredSessions_filter q sessions :
  allHaveText sessions →
  filteredSessions toLowerCase toLocaleString q sessions =
    Some (filter (λ s, sessionMatches toLowerCase toLocaleString (toLowerCase q) s
                       = Some true) sessions).
Proof.
  induction 1 as [|s l Hs Hl IH]; [done|].
  simpl. destruct (sessionMatches_is_Some toLowerCase toLocaleString
                     (toLowerCase q) s Hs) as [b Hb].
  rewrite Hb, IH. simpl. destruct b.
  - by rewrite filter_cons_True.
  - rewrite filter_cons_False; [done|]. rewrite Hb. congruence.
Qed.

(** The search lists exactly the sessions in which the lower-cased query
    occurs as a contiguous piece of the lower-cased title, of the lower-cased
    formatted start time, or of the lower-cased message texts joined by
    spaces. *)
Theorem search_lists_occurrences q sessions :
  allHaveText sessions →
  ∃ r,
    filteredSessions toLowerCase toLocaleString q sessions = Some r ∧
    ∀ s, s ∈ r ↔
      s ∈ sessions ∧
      ∃ c a b,
        contentText s = Some c ∧
        (toLowerCase (title s) = a ++ toLowerCase q ++ b ∨
         toLowerCase (toLocaleString (startTime s)) = a ++ toLowerCase q ++ b ∨
         toLowerCase c = a ++ toLowerCase q ++ b).
Proof.
  intros Hall. eexists. split; [by apply filteredSessions_filter|].
  intros s. rewrite list_elem_of_filter. unfold sessionMatches. split.
  - intros [Hm Hin]. split; [done|].
    destruct (contentText s) as [c|]; [|done]. simpl in Hm.
    injection Hm as Hm. apply orb_true_iff in Hm as [Hm|Hm];
      [apply orb_true_iff in Hm as [Hm|Hm]|];
      apply includes_true in Hm as (a & b & Hm); exists c, a, b; auto.
  - intros [Hin (c & a & b & Hc & Hm)]. split; [|done].
    rewrite Hc. simpl. f_equal. rewrite !orb_true_iff, !includes_true.
    destruct Hm as [Hm|[Hm|Hm]]; eauto.
Qed.

(** What the history page shows when its list is rendered: to a guest the
    login prompt; to a user whose stored messages all have text either one
    item per session the search lists, in the order of the store, or, when
    there is none, a single note, which says that nothing matches when a query
    was typed and that nothing is saved when none was. Nothing but the list is
    changed. *)
Theorem renderChatHistoryList_shows q st :
  allHaveText (getChatSessions st) →
  ∃ r items,
    filteredSessions toLowerCase toLocaleString q (getChatSessions st) = Some r ∧
    renderChatHistoryList toLowerCase toLocaleString q st =
      Returns (set_chatHistoryListEl items st) ∧
    match currentUser st with
    | None => items = [LoginPrompt]
    | Some _ =>
        shownSessions items = r ∧ length items = length r `max` 1 ∧
        (r = [] →
         items = [EmptyMessage (if decide (q = [])
                                then u16 "No saved chats yet."
                                else u16 "No matching chats found.")])
    end.
Proof.
  intros Hall. rewrite (filteredSessions_filter q _ Hall).
  unfold renderChatHistoryList.
  destruct (currentUser st) as [cu|] eqn:Hu; [|by eexists _, _].
  rewrite (filteredSessions_filter q _ Hall).
  destruct (filter _ (getChatSessions st)) as [|s l]; eexists _, _;
    (split; [done|]); (split; [done|]).
  - split_and!; [done..|]. intros _. unfold truthy.
    destruct (decide (q = [])) as [->|Hq]; [done|].
    by rewrite bool_decide_eq_true_2.
  - split_and!; [|simpl; rewrite length_fmap; lia|done].
    generalize (s :: l). intros k. unfold shownSessions.
    induction k as [|x k IH]; [done|]. rewrite fmap_cons, bind_cons, IH. done.
Qed.

End HistoryList.

Lemma search_lists_occurrences_witness :
  ∃ r,
    filteredSessions lowerLatin (λ d, d) (u16 "BYE") [greetingSession; farewellSession]
      = Some r ∧
    ∀ s, s ∈ r ↔
      s ∈ [greetingSession; farewellSession] ∧
      ∃ c a b,
        contentText s = Some c ∧
        (lowerLatin (title s) = a ++ lowerLatin (u16 "BYE") ++ b ∨
         lowerLatin (startTime s) = a ++ lowerLatin (u16 "BYE") ++ b ∨
         lowerLatin c = a ++ lowerLatin (u16 "BYE") ++ b).
Proof.
  apply (search_lists_occurrences lowerLatin (λ d, d) (u16 "BYE")
           [greetingSession; farewellSession]).
  repeat constructor; by eexists.
Defined.

Lemma renderChatHistoryList_shows_witness :
  ∃ r items,
    filteredSessions lowerLatin (λ d, d) (u16 "bye") (getChatSessions aliceReturning)
      = Some r ∧
    renderChatHistoryList lowerLatin (λ d, d) (u16 "bye") aliceReturning =
      Returns (set_chatHistoryListEl items aliceReturning) ∧
    match currentUser aliceReturning with
    | None => items = [LoginPrompt]
    | Some _ =>
        shownSessions items = r ∧ length items = length r `max` 1 ∧
        (r = [] →
         items = [EmptyMessage (if decide (u16 "bye" = [])
                                then u16 "No saved chats yet."
                                else u16 "No matching chats found.")])
    end.
Proof.
  apply (renderChatHistoryList_shows lowerLatin (λ d, d) (u16 "bye") aliceReturning).
  repeat constructor; by eexists.
Defined.

(** ** What every event keeps *)

Lemma set_users_same st : set_users (users st) st = st.
Proof. by destruct st. Qed.

Lemma credentials_insert (us : list UserProfile) (i : nat) p l :
  us !! i = Some p →
  credentials <$> <[i := set_chatHistory l p]> us = credentials <$> us.
Proof.
  intros Hi. rewrite list_fmap_insert. apply list_insert_id.
  by rewrite list_lookup_fmap, Hi.
Qed.

(** A save returns the state with a profile list of the same credentials, or
    throws and leaves the state. *)
Lemma saveChatSession_result c st :
  (∃ us, saveChatSession c st = Returns (set_users us st) ∧
         credentials <$> us = credentials <$> users st) ∨
  saveChatSession c st = Throws st.
Proof.
  unfold saveChatSession.
  destruct (currentUser st) as [cu|];
    [|left; exists (users st); by rewrite set_users_same].
  destruct (currentMessages st) as [|first rest];
    [left; exists (users st); by rewrite set_users_same|].
  destruct (findUser (username cu) (users st)) as [[i p]|] eqn:Hf;
    [|left; exists (users st); by rewrite set_users_same].
  destruct (firstText first); [|by right].
  left. eexists. split; [done|].
  apply credentials_insert. by apply findUser_lookup in Hf as [? _].
Qed.

Section Invariants.

Variable toLowerCase : jsstring → jsstring.
Variable toLocaleString : jsstring → jsstring.

Lemma deleteChatSession_result id st :
  ∃ us v,
    after (deleteChatSession toLowerCase toLocaleString id st) =
      set_chatHistoryListEl v (set_users us st) ∧
    credentials <$> us = credentials <$> users st.
Proof.
  destruct (currentUser st) as [cu|] eqn:Hu; cycle 1.
  { rewrite deleteChatSession_not_found by auto.
    exists (users st), (chatHistoryListEl st). by destruct st. }
  destruct (findUser (username cu) (users st)) as [[i p]|] eqn:Hf; cycle 1.
  { rewrite deleteChatSession_not_found by eauto.
    exists (users st), (chatHistoryListEl st). by destruct st. }
  destruct (deleteChatSession_found toLowerCase toLocaleString id st cu i p Hu Hf)
    as [v ->].
  eexists _, _. split; [done|].
  apply credentials_insert. by apply findUser_lookup in Hf as [? _].
Qed.

(** How an event changes the identity, the marker and the credentials stored:
    not at all, or by a login or logout that leaves the store alone, or by a
    sign-up that appends one profile. *)
Lemma handle_identity e st :
  let st' := after (handle toLowerCase toLocaleString e st) in
  (currentUser st' = currentUser st ∧ sessionUser st' = sessionUser st ∧
   credentials <$> users st' = credentials <$> users st) ∨
  (currentUser st' = None ∧ sessionUser st' = None ∧
   credentials <$> users st' = credentials <$> users st) ∨
  (∃ u, currentUser st' = Some u ∧ sessionUser st' = Some (username u) ∧
        u ∈ users st ∧ users st' = users st) ∨
  (∃ u, currentUser st' = Some u ∧ sessionUser st' = Some (username u) ∧
        users st' = users st ++ [u] ∧
        ∃ value pw sel, e = ProfileSubmit value pw sel).
Proof.
  destruct e as [value response|c|s c|id|value|name pw|value pw sel|c]; simpl.
  - left. destruct (decide (trim value = [])) as [Hb|Hne].
    + unfold formSubmit, truthy. by rewrite Hb.
    + by destruct (formSubmit_sent value response st Hne) as (st' & ps & -> & ->).
  - left. unfold newChat.
    by destruct (saveChatSession_result c st) as [(us & -> & Hus)| ->].
  - left. unfold loadChat.
    destruct (saveChatSession_result c st) as [(us & -> & Hus)| ->]; [|done].
    simpl. rendered ps. done.
  - left. by destruct (deleteChatSession_result id st) as (us & v & -> & Hus).
  - left. by destruct (renderChatHistoryList_after toLowerCase toLocaleString
                         value st) as [v ->].
  - unfold userLoginSubmit.
    destruct (list_find _ (users st)) as [[i u]|] eqn:Hfind; [|by left].
    right. right. left. exists u. split_and!; [done..| |done].
    apply list_find_Some in Hfind as (Hi & _). by eapply list_elem_of_lookup_2.
  - unfold profileSubmit. case_bool_decide; [by left|].
    right. right. right. eexists. split_and!; [done..|]. by eexists _, _, _.
  - unfold logout.
    destruct (saveChatSession_result c st) as [(us & -> & Hus)| ->]; [|by left].
    right. by left.
Qed.

(** No event removes or alters the name, the avatar or the password of a
    stored profile: after any sequence of events the credentials stored before
    are a prefix of the credentials stored, and only accepted sign-ups add to
    them. *)
Theorem run_keeps_credentials es st :
  credentials <$> users st
  `prefix_of` credentials <$> users (run toLowerCase toLocaleString es st) ∧
  (Forall (λ e, ∀ value pw sel, e ≠ ProfileSubmit value pw sel) es →
   credentials <$> users (run toLowerCase toLocaleString es st)
   = credentials <$> users st).
Proof.
  revert st. induction es as [|e es IH]; intros st; [done|].
  simpl. fold (run toLowerCase toLocaleString es
                 (after (handle toLowerCase toLocaleString e st))).
  destruct (IH (after (handle toLowerCase toLocaleString e st))) as [IH1 IH2].
  pose proof (handle_identity e st) as He. simpl in He.
  split.
  - etrans; [|exact IH1].
    destruct He as [(_ & _ & ->)|[(_ & _ & ->)|[(u & _ & _ & _ & ->)|
                    (u & _ & _ & -> & _)]]]; try done.
    rewrite fmap_app. by apply prefix_app_r.
  - intros Hes. inv Hes. rewrite IH2 by done.
    destruct He as [(_ & _ & ->)|[(_ & _ & ->)|[(u & _ & _ & _ & ->)|
                    (u & _ & _ & _ & value & pw & sel & ->)]]]; try done.
    by edestruct H1.
Qed.

Lemma loggedInStored_handle e st :
  loggedInStored st →
  loggedInStored (after (handle toLowerCase toLocaleString e st)).
Proof.
  intros Hinv cu. pose proof (handle_identity e st) as He. simpl in He.
  assert (∀ st', credentials <$> users st' = credentials <$> users st →
            username <$> users st' = username <$> users st) as Hnames.
  { intros st' H. apply (f_equal (fmap (fst ∘ fst))) in H.
    by rewrite <- !list_fmap_compose in H. }
  destruct He as [(-> & -> & Hus%Hnames)|[(-> & _)|[(u & -> & -> & Hin & ->)|
                  (u & -> & -> & -> & _)]]].
  - rewrite Hus. apply Hinv.
  - done.
  - intros [= <-]. split; [done|]. by apply list_elem_of_fmap_2.
  - intros [= <-]. split; [done|].
    rewrite fmap_app. apply elem_of_app. right. by left.
Qed.

Lemma loggedInStored_start stored marker :
  loggedInStored (after (start stored marker)).
Proof.
  unfold start, checkCurrentUserSession. simpl.
  destruct marker as [name|]; [|done]. simpl.
  destruct (truthy name); [|done].
  destruct (findUser name stored) as [[i p]|] eqn:Hf; [|done].
  apply findUser_lookup in Hf as [Hi Hn].
  assert (∀ st', currentUser st' = Some p → sessionUser st' = Some name →
            users st' = stored → loggedInStored st') as Hok.
  { intros st' Hu Hs Hus cu. rewrite Hu. intros [= <-]. rewrite Hs, Hus, Hn.
    split; [done|]. rewrite <- Hn. apply list_elem_of_fmap_2.
    by eapply list_elem_of_lookup_2. }
  destruct (chatHistory p) as [|latest l]; [by apply Hok|].
  rendered ps. by apply Hok.
Qed.

(** In every state the page reaches from its start, on any storages and by
    any events, the marker names the authenticated user and the store holds a
    profile of that name: the early return of [saveChatSession] and of
    [deleteChatSession] for a user who is not found is never taken. *)
Theorem logged_in_user_is_stored stored marker es cu :
  currentUser (run toLowerCase toLocaleString es (after (start stored marker)))
  = Some cu →
  sessionUser (run toLowerCase toLocaleString es (after (start stored marker)))
  = Some (username cu) ∧
  is_Some (findUser (username cu)
             (users (run toLowerCase toLocaleString es (after (start stored marker))))).
Proof.
  assert (∀ st, loggedInStored st →
            loggedInStored (run toLowerCase toLocaleString es st)) as Hrun.
  { induction es as [|e es IH]; intros st Hst; [done|].
    simpl. apply IH. by apply loggedInStored_handle. }
  intros Hu.
  destruct (Hrun _ (loggedInStored_start stored marker) cu Hu) as [Hs Hin].
  split; [done|].
  destruct (findUser _ _) eqn:Hf; [done|].
  apply findUser_None in Hf. apply list_elem_of_fmap in Hin as (u & Hn & Hu').
  eapply Forall_forall in Hf; [|done]. done.
Qed.

End Invariants.

Lemma run_keeps_credentials_witness :
  credentials <$> users (run lowerLatin (λ d, d) guestEvents (initialState [alice] None))
  = credentials <$> users (initialState [alice] None).
Proof.
  apply (run_keeps_credentials lowerLatin (λ d, d) guestEvents
           (initialState [alice] None)).
  repeat constructor; discriminate.
Defined.

Lemma logged_in_user_is_stored_witness :
  sessionUser
    (run lowerLatin (λ d, d)
       [ProfileSubmit (u16 "bob") (u16 "pw") None; NewChatClick (clockAt 2000)]
       (after (start [alice] None)))
  = Some (username (set_chatHistory [] {| username := u16 "bob";
                                          avatar := DEFAULT_AVATAR;
                                          password := Some (u16 "pw");
                                          chatHistory := [] |})) ∧
  is_Some
    (findUser (username (set_chatHistory [] {| username := u16 "bob";
                                               avatar := DEFAULT_AVATAR;
                                               password := Some (u16 "pw");
                                               chatHistory := [] |}))
       (users (run lowerLatin (λ d, d)
                 [ProfileSubmit (u16 "bob") (u16 "pw") None;
                  NewChatClick (clockAt 2000)]
                 (after (start [alice] None))))).
Proof.
  apply (logged_in_user_is_stored lowerLatin (λ d, d) [alice] None
           [ProfileSubmit (u16 "bob") (u16 "pw") None; NewChatClick (clockAt 2000)]).
  reflexivity.
Defined.

(** ** No handler throws on messages that have text *)






Section NoThrow.

Variable toLowerCase : jsstring → jsstring.
Variable toLocaleString : jsstring → jsstring.





End NoThrow.


(** A stored message without parts makes the start of the page throw. *)
Example start_throws_without_parts :
  ∃ st,
    start [set_chatHistory
             [{| session_id := 1; startTime := []; title := [];
                 history := [{| role := user; parts := []; meta := None |}] |}]
             alice]
      (Some (u16 "alice")) = Throws st.
Proof. by eexists. Qed.

(** ** Theme *)

(** A click on the theme switcher always yields light or dark, dark unless the
    page was dark; the preference stored is the theme shown, exactly one of
    the two icons is hidden (the sun on dark), and from then on the clicks
    alternate between the two themes. *)
Theorem toggleTheme_alternates tp :
  bodyTheme (toggleTheme tp) =
    Some (if decide (bodyTheme tp = Some (u16 "dark")) then u16 "light"
          else u16 "dark") ∧
  themePreference (toggleTheme tp) = bodyTheme (toggleTheme tp) ∧
  sunHidden (toggleTheme tp) = negb (moonHidden (toggleTheme tp)) ∧
  (sunHidden (toggleTheme tp) = true ↔ bodyTheme (toggleTheme tp) = Some (u16 "dark")) ∧
  bodyTheme (toggleTheme (toggleTheme tp)) ≠ bodyTheme (toggleTheme tp) ∧
  toggleTheme (toggleTheme (toggleTheme tp)) = toggleTheme tp.
Proof.
  unfold toggleTheme.
  destruct (decide (bodyTheme tp = Some (u16 "dark"))) as [Hd|Hd].
  - rewrite (bool_decide_eq_true_2 _ Hd). by vm_compute.
  - rewrite (bool_decide_eq_false_2 _ Hd). by vm_compute.
Qed.

(** The theme survives a reload: [loadTheme] after a click on the switcher, or
    after applying any theme with a non-empty name, leaves the page as it is;
    without a stored preference, or with an empty one, it applies light; a
    stored name other than dark is applied as it is, with the icons of
    light. *)
Theorem loadTheme_restores tp :
  loadTheme (toggleTheme tp) = toggleTheme tp ∧
  (∀ theme, theme ≠ [] → loadTheme (applyTheme theme tp) = applyTheme theme tp) ∧
  (themePreference tp = None ∨ themePreference tp = Some [] →
   loadTheme tp = applyTheme (u16 "light") tp) ∧
  (∀ theme, themePreference tp = Some theme → theme ≠ [] → theme ≠ u16 "dark" →
   bodyTheme (loadTheme tp) = Some theme ∧
   sunHidden (loadTheme tp) = false ∧ moonHidden (loadTheme tp) = true).
Proof.
  split_and!.
  - unfold toggleTheme. by destruct (bool_decide _).
  - intros theme Hne. unfold loadTheme, applyTheme, or_else. simpl.
    by rewrite truthy_true.
  - intros [Hp|Hp]; unfold loadTheme; by rewrite Hp.
  - intros theme Hp Hne Hd. unfold loadTheme, or_else. rewrite Hp. simpl.
    rewrite truthy_true by done. simpl. by rewrite bool_decide_eq_false_2.
Qed.

(** ** Avatar picker *)

Lemma selectedOption_pickerWith j avatars a :
  avatars !! j = Some a →
  selectedOption (pickerWith j avatars) =
    Some (j, {| dataAvatar := a; selected := true |}).
Proof.
  intros Hj. apply list_find_Some. unfold pickerWith. split_and!.
  - rewrite list_lookup_imap, Hj. simpl. by rewrite bool_decide_eq_true_2.
  - done.
  - intros i o. rewrite list_lookup_imap. intros Ho Hlt.
    destruct (avatars !! i); [|done]. injection Ho as <-. simpl.
    rewrite bool_decide_eq_false_2 by lia. done.
Qed.

Lemma selectedOption_pickerWith_none j avatars :
  avatars !! j = None → selectedOption (pickerWith j avatars) = None.
Proof.
  intros Hj. apply list_find_None, Forall_lookup. unfold pickerWith.
  intros i o. rewrite list_lookup_imap. intros Ho.
  destruct (avatars !! i) eqn:Hi; [|done]. injection Ho as <-. simpl.
  rewrite bool_decide_eq_false_2; [done|]. intros ->. congruence.
Qed.

Lemma deselect_pickerWith j avatars :
  deselect (pickerWith j avatars) = noneSelected avatars.
Proof.
  unfold deselect. apply list_eq. intros i.
  destruct (avatars !! j) as [a|] eqn:Hj.
  - rewrite (selectedOption_pickerWith j avatars a Hj).
    unfold pickerWith, noneSelected.
    rewrite list_lookup_alter.
    case_decide as Hi; rewrite list_lookup_imap, list_lookup_fmap.
    + subst i. rewrite Hj. reflexivity.
    + destruct (avatars !! i); [|done]. simpl.
      by rewrite bool_decide_eq_false_2 by done.
  - rewrite (selectedOption_pickerWith_none j avatars Hj).
    unfold pickerWith, noneSelected.
    rewrite list_lookup_imap, list_lookup_fmap.
    destruct (avatars !! i) eqn:Hi; [|done]. simpl.
    rewrite bool_decide_eq_false_2; [done|]. intros ->. congruence.
Qed.

Lemma select_noneSelected k avatars :
  alter (setSelected true) k (noneSelected avatars) = pickerWith k avatars.
Proof.
  apply list_eq. intros i. unfold pickerWith, noneSelected.
  rewrite list_lookup_alter.
  case_decide as Hi; rewrite list_lookup_imap, list_lookup_fmap.
  - subst i. destruct (avatars !! k); [|done]. simpl.
    by rewrite bool_decide_eq_true_2.
  - destruct (avatars !! i); [|done]. simpl.
    by rewrite bool_decide_eq_false_2 by done.
Qed.

Lemma pick_pickerWith j avatars d e :
  list_find (λ a, a = DEFAULT_AVATAR) avatars = Some (d, DEFAULT_AVATAR) →
  pick (pickerWith j avatars) e =
    pickerWith (match e with OptionClick k => k | ModalClosed => d end) avatars.
Proof.
  intros Hd. destruct e as [k|]; simpl.
  - unfold clickOption. by rewrite deselect_pickerWith, select_noneSelected.
  - unfold resetSelection. rewrite deselect_pickerWith. unfold noneSelected.
    rewrite (list_find_fmap _ (λ o, dataAvatar o = DEFAULT_AVATAR)).
    unfold compose. simpl. rewrite Hd. simpl. apply select_noneSelected.
Qed.

(** After any clicks on the options and closings of the sign-up modal, the
    picker that [initializeAvatarPicker] built has exactly the option clicked
    last selected, the default's after a closing or before any click; a
    sign-up that is accepted then stores that option's avatar. *)
Theorem picker_selects_last_click events :
  foldl pick initializeAvatarPicker events =
    pickerWith (lastPick events) (DEFAULT_AVATAR :: AVATARS) ∧
  selectedAvatarOf (foldl pick initializeAvatarPicker events) =
    (DEFAULT_AVATAR :: AVATARS) !! lastPick events ∧
  ∀ a value pw st,
    (DEFAULT_AVATAR :: AVATARS) !! lastPick events = Some a →
    ¬ Exists (λ u, username u = trim value) (users st) →
    avatar <$> currentUser
                 (profileSubmit value pw
                    (selectedAvatarOf (foldl pick initializeAvatarPicker events)) st)
    = Some a.
Proof.
  assert (foldl pick initializeAvatarPicker events =
          pickerWith (lastPick events) (DEFAULT_AVATAR :: AVATARS)) as Hp.
  { induction events as [|e events IH] using rev_ind; [done|].
    rewrite foldl_snoc, IH. unfold lastPick. rewrite last_snoc.
    rewrite (pick_pickerWith _ _ 0) by done. by destruct e. }
  assert (selectedAvatarOf (pickerWith (lastPick events) (DEFAULT_AVATAR :: AVATARS))
          = (DEFAULT_AVATAR :: AVATARS) !! lastPick events) as Hs.
  { unfold selectedAvatarOf.
    destruct ((DEFAULT_AVATAR :: AVATARS) !! lastPick events) as [a|] eqn:Hk.
    - by rewrite (selectedOption_pickerWith _ _ a).
    - by rewrite selectedOption_pickerWith_none. }
  rewrite Hp. split_and!; [done|done|].
  intros a value pw st Ha Hfresh. rewrite Hs, Ha. unfold profileSubmit.
  rewrite bool_decide_eq_false_2 by done. simpl. f_equal.
  unfold or_else. rewrite truthy_true; [done|].
  intros ->. revert Ha. generalize (lastPick events). intros k.
  do 7 (destruct k as [|k]; [discriminate|]). done.
Qed.

(** Two clicks and a closing of the modal. *)
Example picker_alice :
  selectedAvatarOf (foldl pick initializeAvatarPicker [OptionClick 3; OptionClick 1])
    = Some person ∧
  selectedAvatarOf
    (foldl pick initializeAvatarPicker [OptionClick 3; OptionClick 1; ModalClosed])
    = Some DEFAULT_AVATAR.
Proof. by vm_compute. Qed.
